(** * Verification of movie_bot.py (catalog ingestion, canonicalisation,
    metadata lookup and matching)

    Characters of a Python [str] are modelled as code points 0..255 (the
    Latin-1 block of Unicode), one [Ascii.ascii] each.  Python's [re]
    module in [str] mode classifies them with [str.isspace] ([\s]),
    [str.isalnum] or ['_'] ([\w]) and [str.isdecimal] ([\d]); the tables
    below are those predicates restricted to that block. *)

From Stdlib Require Import Bool Arith ZArith List Lia.
From Stdlib Require Import Strings.String Strings.Ascii Numbers.DecimalString.
Import ListNotations.
Open Scope string_scope.

(** ** Python character classes *)

Definition code (c : ascii) : nat := nat_of_ascii c.

Definition in_range (lo hi n : nat) : bool := Nat.leb lo n && Nat.leb n hi.

(** [str.isspace]: \t \n \v \f \r, the separators 0x1C..0x1F, space,
    NEL (0x85) and NO-BREAK SPACE (0xA0). *)
Definition is_space (c : ascii) : bool :=
  let n := code c in
  in_range 9 13 n || in_range 28 32 n || (Nat.eqb n 133) || (Nat.eqb n 160).

(** [str.isdecimal]: only the ASCII digits in this block. *)
Definition is_decimal (c : ascii) : bool := in_range 48 57 (code c).

(** [str.isalnum]: digits, ASCII letters, the Latin-1 letters and the
    Latin-1 numerics (superscripts 2, 3, 1 and the vulgar fractions). *)
Definition is_alnum (c : ascii) : bool :=
  let n := code c in
  is_decimal c || in_range 65 90 n || in_range 97 122 n
  || (Nat.eqb n 170) || (Nat.eqb n 178) || (Nat.eqb n 179) || (Nat.eqb n 181) || (Nat.eqb n 185)
  || (Nat.eqb n 186) || in_range 188 190 n || in_range 192 214 n
  || in_range 216 246 n || in_range 248 255 n.

(** [\w] in [str] patterns: alphanumeric or underscore. *)
Definition is_word (c : ascii) : bool := is_alnum c || (Nat.eqb (code c) 95).

Arguments is_space : simpl never.
Arguments is_decimal : simpl never.
Arguments is_alnum : simpl never.
Arguments is_word : simpl never.

(** ** [normalize_movie_name] (movie_bot.py, lines 95-104) *)

(** [re.sub(r'[^\w\s]', ' ', s)] *)
Fixpoint sub_special (s : string) : string :=
  match s with
  | EmptyString => EmptyString
  | String c t =>
      String (if is_word c || is_space c then c else " "%char) (sub_special t)
  end.

(** [re.sub(r'\s+', ' ', s)]: every maximal run of whitespace becomes one
    space; [in_ws] says the previous character was part of such a run. *)
Fixpoint collapse_ws (in_ws : bool) (s : string) : string :=
  match s with
  | EmptyString => EmptyString
  | String c t =>
      if is_space c
      then if in_ws then collapse_ws true t
           else String " " (collapse_ws true t)
      else String c (collapse_ws false t)
  end.

Definition sub_ws (s : string) : string := collapse_ws false s.

(** [str.lstrip()], [str.rstrip()] and [str.strip()] *)
Fixpoint lstrip (s : string) : string :=
  match s with
  | EmptyString => EmptyString
  | String c t => if is_space c then lstrip t else s
  end.

Fixpoint rstrip (s : string) : string :=
  match s with
  | EmptyString => EmptyString
  | String c t =>
      let t' := rstrip t in
      match t' with
      | EmptyString => if is_space c then EmptyString else String c EmptyString
      | _ => String c t'
      end
  end.

Definition strip (s : string) : string := rstrip (lstrip s).

Definition digits4 (a b c d : ascii) : bool :=
  is_decimal a && is_decimal b && is_decimal c && is_decimal d.

(** [re.search(r'(\d{4})', s)]: group 1 of the leftmost match. *)
Fixpoint search_year (s : string) : option string :=
  match s with
  | EmptyString => None
  | String a t =>
      match t with
      | String b (String c (String d _)) =>
          if digits4 a b c d
          then Some (String a (String b (String c (String d EmptyString))))
          else search_year t
      | _ => None
      end
  end.

(** [re.sub(r'(\d{4})', '', s)]: every non-overlapping match, scanning from
    the left, is deleted. *)
Fixpoint sub_year (s : string) : string :=
  match s with
  | EmptyString => EmptyString
  | String a t =>
      match t with
      | String b (String c (String d r)) =>
          if digits4 a b c d then sub_year r else String a (sub_year t)
      | _ => s
      end
  end.

Definition normalize_movie_name (caption : string) : string :=
  let name := sub_special caption in
  let name := strip (sub_ws name) in
  match search_year name with
  | Some year =>
      let name := strip (sub_year name) in
      name ++ " (" ++ year ++ ")"
  | None => name
  end.

Example normalize_matrix :
  normalize_movie_name "The Matrix, 1999!!" = "The Matrix (1999)".
Proof. reflexivity. Qed.

(** The cleaned caption the year is searched in (lines 97-98). *)
Definition clean_caption (caption : string) : string :=
  strip (sub_ws (sub_special caption)).

(** ** Predicates on strings used by the statements *)

Fixpoint all_chars (p : ascii -> bool) (s : string) : bool :=
  match s with
  | EmptyString => true
  | String c t => p c && all_chars p t
  end.

(** [no_year_run k s]: [s], preceded by [k] decimal digits, contains no run
    of four decimal digits. *)
Fixpoint no_year_run (k : nat) (s : string) : bool :=
  match s with
  | EmptyString => true
  | String c t =>
      if is_decimal c then Nat.ltb k 3 && no_year_run (S k) t
      else no_year_run 0 t
  end.

(** Characters a canonical key is made of. *)
Definition key_char (c : ascii) : bool :=
  is_word c || Ascii.eqb c " " || Ascii.eqb c "(" || Ascii.eqb c ")".

(** Characters of the body of a key, before any appended year. *)
Definition body_char (c : ascii) : bool := is_word c || Ascii.eqb c " ".

Fixpoint no_double_space (s : string) : bool :=
  match s with
  | EmptyString => true
  | String a t =>
      match t with
      | EmptyString => true
      | String b _ => negb (is_space a && is_space b) && no_double_space t
      end
  end.

Definition starts_space (s : string) : bool :=
  match s with
  | String a _ => is_space a
  | EmptyString => false
  end.

Fixpoint ends_space (s : string) : bool :=
  match s with
  | EmptyString => false
  | String a EmptyString => is_space a
  | String _ t => ends_space t
  end.

(** Single-spaced and trimmed. *)
Definition well_spaced (s : string) : bool :=
  no_double_space s && negb (starts_space s) && negb (ends_space s).

(** ** Python values and results *)

(** The one exception the modelled code can let escape: [data.get] on a
    decoded JSON value that is not a dict. *)
Inductive py_exn := AttributeError.

Inductive py_result (A : Type) :=
| PyOk (a : A)
| PyRaise (e : py_exn).
Arguments PyOk {A} a.
Arguments PyRaise {A} e.

(** [str(z)] for a Python int. *)
Definition z_str (z : Z) : string := NilEmpty.string_of_int (Z.to_int z).

(** [int(s)] for a Python [str] already stripped: an optional sign, then
    decimal digits with single underscores allowed between digits. *)
Definition digit_val (c : ascii) : Z := Z.of_nat (code c - 48).

Fixpoint parse_digits (acc : Z) (after_us : bool) (s : string) : option Z :=
  match s with
  | EmptyString => if after_us then None else Some acc
  | String c t =>
      if is_decimal c then parse_digits (acc * 10 + digit_val c) false t
      else if Ascii.eqb c "_" && negb after_us then parse_digits acc true t
      else None
  end.

Definition parse_unsigned (s : string) : option Z :=
  match s with
  | String c _ => if is_decimal c then parse_digits 0 false s else None
  | EmptyString => None
  end.

Definition parse_int (s : string) : option Z :=
  match s with
  | String c t =>
      if Ascii.eqb c "-" then option_map Z.opp (parse_unsigned t)
      else if Ascii.eqb c "+" then parse_unsigned t
      else parse_unsigned s
  | EmptyString => None
  end.

(** ** Decoded JSON and HTTP replies *)

#[warnings="-register-all"]
Inductive json :=
| JNull
| JBool (b : bool)
| JNum (z : Z)
| JStr (s : string)
| JArr (l : list json)
| JObj (kvs : list (string * json)).

(** [str(v)] of a decoded JSON value as it appears inside an f-string.
    Containers are printed as their elements separated by ", " between
    brackets; Python's quoting of nested strings is not reproduced. *)
Fixpoint py_str (j : json) : string :=
  match j with
  | JNull => "None"
  | JBool true => "True"
  | JBool false => "False"
  | JNum z => z_str z
  | JStr s => s
  | JArr l =>
      "[" ++ (fix go (l : list json) : string :=
                match l with
                | [] => ""
                | [x] => py_str x
                | x :: r => py_str x ++ ", " ++ go r
                end) l ++ "]"
  | JObj kvs =>
      "{" ++ (fix go (kvs : list (string * json)) : string :=
                match kvs with
                | [] => ""
                | [(k, x)] => k ++ ": " ++ py_str x
                | (k, x) :: r => k ++ ": " ++ py_str x ++ ", " ++ go r
                end) kvs ++ "}"
  end.

(** [dict.get(k)] on a dict decoded from a JSON object: the last binding
    of a repeated key wins. *)
Definition dict_get (kvs : list (string * json)) (k : string) : option json :=
  fold_left (fun acc kv => if String.eqb (fst kv) k then Some (snd kv) else acc)
    kvs None.

(** [data.get(k, 'N/A')] formatted into an f-string. *)
Definition field_or_na (kvs : list (string * json)) (k : string) : string :=
  match dict_get kvs k with
  | Some v => py_str v
  | None => "N/A"
  end.

(** [data.get("Response") == "True"] *)
Definition response_true (kvs : list (string * json)) : bool :=
  match dict_get kvs "Response" with
  | Some (JStr s) => String.eqb s "True"
  | _ => false
  end.

Inductive transport_error := Timeout | ConnectionError | TooManyRedirects.

Inductive http_body := NotJson | Json (j : json).

(** What [requests.get(url)] ends in: an exception of [requests] before any
    reply, or a reply with its status code and body. *)
Inductive http_result :=
| Transport (e : transport_error)
| Reply (status : Z) (body : http_body).

(** [response.raise_for_status()] raises for 4xx and 5xx. *)
Definition http_error (status : Z) : bool := (400 <=? status)%Z && (status <? 600)%Z.

Definition newline : string := String (ascii_of_nat 10) EmptyString.

Definition omdb_summary (kvs : list (string * json)) : string :=
  "Title: " ++ field_or_na kvs "Title" ++ newline ++
  "Year: " ++ field_or_na kvs "Year" ++ newline ++
  "Genre: " ++ field_or_na kvs "Genre" ++ newline ++
  "Director: " ++ field_or_na kvs "Director" ++ newline ++
  "Plot: " ++ field_or_na kvs "Plot".

Definition details_not_available : string := "Movie details not available.".
Definition error_fetching : string := "Error fetching movie details.".
Definition no_details_available : string := "No details available".

(** ** Channel updates *)

Record document := mkDocument { file_id : string }.

Record message := mkMessage {
  document_of : option document;
  caption : option string }.

Record update := mkUpdate {
  update_id : Z;
  message_of : option message }.

(** Exceptions of [bot.get_updates]: all are [TelegramError]s. *)
Inductive telegram_error :=
| RetryAfter (retry_after : Z)
| Conflict
| Unauthorized
| BadRequest
| OtherTelegramError.

Inductive channel_reply :=
| Updates (us : list update)
| ChannelError (e : telegram_error).

(** A row of the [movies] table: (normalized_name, details, file_id). *)
Record movie_row := mkRow {
  normalized_name : string;
  details : string;
  row_file_id : string }.

(** ** The world the job runs in *)

Record world := mkWorld {
  cursor_file : option string;          (* last_update_id.txt, if present *)
  catalog : list movie_row;             (* the movies table, by rowid *)
  channel : option Z -> channel_reply;  (* bot.get_updates(offset=...) *)
  omdb : string -> http_result;         (* the OMDb service, by title *)
  storage_fault : option nat;           (* failing statement of a batch *)
  requested : list (option Z);          (* offsets sent to get_updates *)
  omdb_calls : list string;             (* titles sent to OMDb *)
  slept : list Z;                       (* time.sleep durations *)
  log : list string }.

Definition set_cursor_file (f : option string) (w : world) : world :=
  mkWorld f (catalog w) (channel w) (omdb w) (storage_fault w) (requested w)
    (omdb_calls w) (slept w) (log w).

Definition set_catalog (c : list movie_row) (w : world) : world :=
  mkWorld (cursor_file w) c (channel w) (omdb w) (storage_fault w)
    (requested w) (omdb_calls w) (slept w) (log w).

Definition add_request (o : option Z) (w : world) : world :=
  mkWorld (cursor_file w) (catalog w) (channel w) (omdb w) (storage_fault w)
    (requested w ++ [o])%list (omdb_calls w) (slept w) (log w).

Definition add_omdb_call (t : string) (w : world) : world :=
  mkWorld (cursor_file w) (catalog w) (channel w) (omdb w) (storage_fault w)
    (requested w) (omdb_calls w ++ [t])%list (slept w) (log w).

Definition add_sleep (n : Z) (w : world) : world :=
  mkWorld (cursor_file w) (catalog w) (channel w) (omdb w) (storage_fault w)
    (requested w) (omdb_calls w) (slept w ++ [n])%list (log w).

Definition add_log (m : string) (w : world) : world :=
  mkWorld (cursor_file w) (catalog w) (channel w) (omdb w) (storage_fault w)
    (requested w) (omdb_calls w) (slept w) (log w ++ [m])%list.


(** ** A state and exception monad for the job *)

Definition M (A : Type) : Type := world -> py_result A * world.

Definition ret {A} (a : A) : M A := fun w => (PyOk a, w).

Definition bind {A B} (m : M A) (k : A -> M B) : M B :=
  fun w =>
    match m w with
    | (PyOk a, w') => k a w'
    | (PyRaise e, w') => (PyRaise e, w')
    end.

Notation "x <- m ;; k" := (bind m (fun x => k))
  (at level 61, m at next level, right associativity).
Notation "m ;; k" := (bind m (fun _ => k)) (at level 61, right associativity).

Definition modify (f : world -> world) : M unit := fun w => (PyOk tt, f w).

Definition log_msg (m : string) : M unit := modify (add_log m).

Fixpoint foldM {A B} (f : B -> A -> M B) (l : list A) (b : B) : M B :=
  match l with
  | [] => ret b
  | x :: r => b' <- f b x ;; foldM f r b'
  end.

(** ** Cursor store (lines 41-55) *)

(** [int(file.read().strip())], or [None] when it raises [ValueError]. *)
Definition cursor_value (f : option string) : option Z :=
  match f with
  | Some content => parse_int (strip content)
  | None => None
  end.

Definition get_last_update_id : M (option Z) :=
  fun w =>
    match cursor_file w with
    | None => (PyOk None, w)
    | Some content =>
        match parse_int (strip content) with
        | Some z => (PyOk (Some z), w)
        | None =>
            (PyOk None,
             add_log "Error reading LAST_UPDATE_ID_FILE. Resetting to None." w)
        end
    end.

Definition save_last_update_id (update_id : Z) : M unit :=
  modify (set_cursor_file (Some (z_str update_id))).

(** ** [DatabaseManager.insert_movies] (lines 84-92) *)

(** [INSERT OR IGNORE] against the UNIQUE column [normalized_name]. *)
Definition insert_or_ignore (db : list movie_row) (r : movie_row) : list movie_row :=
  if existsb (fun r' => String.eqb (normalized_name r') (normalized_name r)) db
  then db else (db ++ [r])%list.

(** [c.executemany(...)] inside the connection's transaction. *)
Definition executemany (db : list movie_row) (rows : list movie_row) : list movie_row :=
  fold_left insert_or_ignore rows db.

(** The [normalized_name] column. *)
Definition keys (db : list movie_row) : list string := map normalized_name db.

(** [storage_fault = Some n] makes the [n]-th INSERT of the batch fail
    ([n = length rows]: the commit fails).  The [with sqlite3.connect(...)]
    block rolls the open transaction back when an exception leaves it, and
    the [except sqlite3.Error] clause logs it. *)
Definition insert_movies (movies : list movie_row) : M unit :=
  fun w =>
    match storage_fault w with
    | Some n =>
        if Nat.leb n (List.length movies)
        then (PyOk tt, add_log "Database error during batch insert" w)
        else (PyOk tt, set_catalog (executemany (catalog w) movies) w)
    | None => (PyOk tt, set_catalog (executemany (catalog w) movies) w)
    end.

(** ** [fetch_movie_details_from_omdb] (lines 106-127) *)

Definition requests_get (movie_name : string) : M http_result :=
  fun w => (PyOk (omdb w movie_name), add_omdb_call movie_name w).

(** [requests.exceptions.JSONDecodeError] (raised by [response.json()] on a
    body that is not JSON) is a [RequestException], like the errors of
    [requests.get] and [raise_for_status]. *)
Definition fetch_movie_details_from_omdb (movie_name : string) : M string :=
  response <- requests_get movie_name ;;
  match response with
  | Transport _ =>
      log_msg "Error fetching data from OMDb API" ;; ret error_fetching
  | Reply status body =>
      if http_error status then
        log_msg "Error fetching data from OMDb API" ;; ret error_fetching
      else
        match body with
        | NotJson =>
            log_msg "Error fetching data from OMDb API" ;; ret error_fetching
        | Json (JObj data) =>
            if response_true data then ret (omdb_summary data)
            else log_msg "OMDb API error" ;; ret details_not_available
        | Json _ => fun w => (PyRaise AttributeError, w)
        end
  end.

(** The replies on which the lookup ends in its [except] clause. *)
Definition lookup_failed (r : http_result) : bool :=
  match r with
  | Transport _ => true
  | Reply _ NotJson => true
  | Reply status (Json _) => http_error status
  end.

(** ** [fetch_movies_from_channel] (lines 130-171) *)

Definition get_updates (offset : option Z) : M channel_reply :=
  fun w => (PyOk (channel w offset), add_request offset w).

Definition handle_channel_error (e : telegram_error) : M unit :=
  match e with
  | RetryAfter n =>
      log_msg "Rate limit exceeded." ;; modify (add_sleep n)
  | Conflict => log_msg "Another bot instance is running. Exiting."
  | Unauthorized => log_msg "Invalid or inaccessible chat_id."
  | BadRequest | OtherTelegramError => log_msg "Error while fetching updates"
  end.

(** [update.message.caption or "No details available"] *)
Definition caption_or_default (c : option string) : string :=
  match c with
  | Some s => if String.eqb s "" then no_details_available else s
  | None => no_details_available
  end.

(** The body of the [for update in updates] loop. *)
Definition process_update (movies_to_insert : list movie_row) (u : update)
  : M (list movie_row) :=
  (if Z.eqb (update_id u) 0 then ret tt
   else save_last_update_id (update_id u + 1)) ;;
  match message_of u with
  | Some m =>
      match document_of m with
      | Some doc =>
          let caption := caption_or_default (caption m) in
          let normalized_name := normalize_movie_name caption in
          details <-
            (if String.eqb caption no_details_available then
               online_details <- fetch_movie_details_from_omdb normalized_name ;;
               ret (if String.eqb online_details "" then caption
                    else online_details)
             else ret caption) ;;
          ret (movies_to_insert ++ [mkRow normalized_name details (file_id doc)])%list
      | None => ret movies_to_insert
      end
  | None => ret movies_to_insert
  end.

Definition fetch_movies_from_channel : M unit :=
  last_update_id <- get_last_update_id ;;
  log_msg "Fetching updates from channel" ;;
  reply <- get_updates last_update_id ;;
  match reply with
  | ChannelError e => handle_channel_error e
  | Updates updates =>
      movies_to_insert <- foldM process_update updates [] ;;
      match movies_to_insert with
      | [] => ret tt
      | _ => insert_movies movies_to_insert
      end
  end.

(** ** Semantic matcher *)

From Stdlib Require Import QArith Lqa.
Close Scope Q_scope.

(** Modelled from the spec: the matcher [best_match] (spec section 4.5),
    which movie_bot.py does not contain (it loads the sentence-embedding
    [model] at lines 37-38 and never calls it).  Each entry is embedded
    from its description, or from its key when the description is empty or
    a lookup sentinel; the query is embedded with the same model; the entry
    of smallest cosine distance whose similarity reaches [floor] is
    returned (the earliest one on a tie), and [None] when no entry reaches
    the floor. *)
Definition match_text (r : movie_row) : string :=
  if String.eqb (details r) "" || String.eqb (details r) error_fetching
     || String.eqb (details r) details_not_available
  then normalized_name r else details r.

Section Matcher.
Context {Vec : Type} (embed : string -> Vec)
  (cosine_similarity : Vec -> Vec -> Q).
Local Open Scope Q_scope.

Definition cosine_distance (u v : Vec) : Q := 1 - cosine_similarity u v.

(** One step of the scan: keep [best] unless [r] reaches the floor and
    is strictly closer to the query [q]. *)
Definition pick_best (q : Vec) (floor : Q) (best : option (movie_row * Q))
  (r : movie_row) : option (movie_row * Q) :=
  let v := embed (match_text r) in
  if Qle_bool floor (cosine_similarity q v) then
    match best with
    | Some (_, bd) =>
        if Qle_bool bd (cosine_distance q v) then best
        else Some (r, cosine_distance q v)
    | None => Some (r, cosine_distance q v)
    end
  else best.

Definition best_match (floor : Q) (query : string)
  (snapshot : list movie_row) : option movie_row :=
  option_map fst (fold_left (pick_best (embed query) floor) snapshot None).
End Matcher.

(** ** Reading back a saved cursor *)

From Stdlib Require DecimalPos DecimalZ.

(** The value of a string of decimal digits, read most significant digit
    first onto [acc]; the inverse of [str] on the digits it prints. *)
Fixpoint uval (acc : Z) (d : Decimal.uint) : Z :=
  match d with
  | Decimal.Nil => acc
  | Decimal.D0 l => uval (acc * 10 + 0) l
  | Decimal.D1 l => uval (acc * 10 + 1) l
  | Decimal.D2 l => uval (acc * 10 + 2) l
  | Decimal.D3 l => uval (acc * 10 + 3) l
  | Decimal.D4 l => uval (acc * 10 + 4) l
  | Decimal.D5 l => uval (acc * 10 + 5) l
  | Decimal.D6 l => uval (acc * 10 + 6) l
  | Decimal.D7 l => uval (acc * 10 + 7) l
  | Decimal.D8 l => uval (acc * 10 + 8) l
  | Decimal.D9 l => uval (acc * 10 + 9) l
  end.

(** ** Effects of the update loop (lines 154-168) *)

(** The cursor file after one pass of the loop body: [if update.update_id:]
    saves [update_id + 1], an id of 0 leaves it alone. *)
Definition cursor_step (f : option string) (u : update) : option string :=
  if Z.eqb (update_id u) 0 then f else Some (z_str (update_id u + 1)).

(** The [file_id] the loop body stages for an update: one when the update
    has a message with a document, none otherwise. *)
Definition doc_file (u : update) : list string :=
  match message_of u with
  | Some m => match document_of m with Some d => [file_id d] | None => [] end
  | None => []
  end.

(** ** Sample inputs *)

Definition row_a : movie_row := mkRow "Alien (1979)" "Alien, 1979" "FA".
Definition row_b : movie_row := mkRow "Heat (1995)" "Heat 1995" "FB".

(** A world whose channel answers [chan] and whose OMDb answers [resp]. *)
Definition sample_world (cursor : option string) (db : list movie_row)
  (chan : channel_reply) (resp : http_result) (fault : option nat) : world :=
  mkWorld cursor db (fun _ => chan) (fun _ => resp) fault [] [] [] [].

Definition plain_update (id : Z) : update := mkUpdate id None.

Definition doc_update (id : Z) (cap : option string) (fid : string) : update :=
  mkUpdate id (Some (mkMessage (Some (mkDocument fid)) cap)).

(** ** Lemmas on the normaliser *)

Lemma all_chars_app : forall p s1 s2,
  all_chars p (s1 ++ s2) = all_chars p s1 && all_chars p s2.
Proof.
  induction s1 as [|c t IH]; intros s2; simpl; [reflexivity|].
  rewrite IH. apply andb_assoc.
Qed.

Lemma rstrip_prefix : forall s, exists u, s = rstrip s ++ u.
Proof.
  induction s as [|c t [u Hu]]; simpl.
  - exists EmptyString. reflexivity.
  - destruct (rstrip t) as [|x y] eqn:E.
    + destruct (is_space c); simpl in *.
      * exists (String c t). reflexivity.
      * exists u. rewrite Hu at 1. reflexivity.
    + exists u. simpl. rewrite Hu at 1. reflexivity.
Qed.

Lemma no_year_run_mono : forall s k j,
  j <= k -> no_year_run k s = true -> no_year_run j s = true.
Proof.
  induction s as [|c t IH]; intros k j Hjk H; simpl in *; [reflexivity|].
  destruct (is_decimal c); [|exact H].
  apply andb_true_iff in H as [H1 H2]. apply Nat.ltb_lt in H1.
  apply andb_true_iff; split.
  - apply Nat.ltb_lt. lia.
  - apply (IH (S k)); [lia | exact H2].
Qed.

Lemma no_year_run_tail : forall c t,
  no_year_run 0 (String c t) = true -> no_year_run 0 t = true.
Proof.
  intros c t H; simpl in H. destruct (is_decimal c); [|exact H].
  apply (no_year_run_mono t 1 0); [lia|]. exact H.
Qed.

Lemma no_year_run_search : forall s,
  no_year_run 0 s = true -> search_year s = None.
Proof.
  induction s as [|a t IH]; intros H; [reflexivity|].
  pose proof (IH (no_year_run_tail a t H)) as Ht.
  simpl. destruct t as [|b [|c [|d r]]]; try reflexivity.
  destruct (digits4 a b c d) eqn:E; [|exact Ht].
  unfold digits4 in E. apply andb_true_iff in E as [E Ed].
  apply andb_true_iff in E as [E Ec]. apply andb_true_iff in E as [Ea Eb].
  simpl in H. rewrite Ea, Eb, Ec, Ed in H. discriminate H.
Qed.

Lemma no_year_run_prefix : forall p u k,
  no_year_run k (p ++ u) = true -> no_year_run k p = true.
Proof.
  induction p as [|c t IH]; intros u k H; simpl in *; [reflexivity|].
  destruct (is_decimal c).
  - apply andb_true_iff in H as [H1 H2]. rewrite H1. simpl. eapply IH; exact H2.
  - eapply IH; exact H.
Qed.

Lemma no_year_run_lstrip : forall s,
  no_year_run 0 s = true -> no_year_run 0 (lstrip s) = true.
Proof.
  induction s as [|c t IH]; intros H; simpl; [reflexivity|].
  destruct (is_space c); [|exact H].
  apply IH. exact (no_year_run_tail c t H).
Qed.

Lemma no_year_run_strip : forall s,
  no_year_run 0 s = true -> no_year_run 0 (strip s) = true.
Proof.
  intros s H. unfold strip.
  destruct (rstrip_prefix (lstrip s)) as [u Hu].
  apply (no_year_run_prefix _ u). rewrite <- Hu.
  apply no_year_run_lstrip. exact H.
Qed.

Lemma no_year_run_dec : forall k c t,
  is_decimal c = true ->
  no_year_run k (String c t) = Nat.ltb k 3 && no_year_run (S k) t.
Proof. intros k c t H. simpl. rewrite H. reflexivity. Qed.

Lemma no_year_run_nondec : forall k c t,
  is_decimal c = false -> no_year_run k (String c t) = no_year_run 0 t.
Proof. intros k c t H. simpl. rewrite H. reflexivity. Qed.

Lemma sub_year_short : forall s, length s < 4 -> sub_year s = s.
Proof.
  intros [|a [|b [|c [|d r]]]] H; simpl in *; try reflexivity; lia.
Qed.

Lemma sub_year_window : forall a b c d r,
  sub_year (String a (String b (String c (String d r)))) =
  if digits4 a b c d then sub_year r
  else String a (sub_year (String b (String c (String d r)))).
Proof. reflexivity. Qed.

Lemma sub_year_keep0 : forall a t,
  is_decimal a = false -> sub_year (String a t) = String a (sub_year t).
Proof.
  intros a [|b [|c [|d r]]] Ha; try reflexivity.
  rewrite sub_year_window. unfold digits4. rewrite Ha. reflexivity.
Qed.

Lemma sub_year_keep1 : forall a b t,
  is_decimal b = false ->
  sub_year (String a (String b t)) = String a (String b (sub_year t)).
Proof.
  intros a b [|c [|d r]] Hb; try reflexivity.
  rewrite sub_year_window. unfold digits4. rewrite Hb, andb_false_r.
  simpl andb. cbv iota. rewrite (sub_year_keep0 b) by exact Hb. reflexivity.
Qed.

Lemma sub_year_keep2 : forall a b c t,
  is_decimal c = false ->
  sub_year (String a (String b (String c t))) =
  String a (String b (String c (sub_year t))).
Proof.
  intros a b c [|d r] Hc; [reflexivity|].
  rewrite sub_year_window. unfold digits4. rewrite Hc, andb_false_r.
  simpl andb. cbv iota. rewrite (sub_year_keep1 b c) by exact Hc. reflexivity.
Qed.

Lemma sub_year_keep3 : forall a b c d r,
  is_decimal d = false ->
  sub_year (String a (String b (String c (String d r)))) =
  String a (String b (String c (String d (sub_year r)))).
Proof.
  intros a b c d r Hd.
  rewrite sub_year_window. unfold digits4. rewrite Hd, andb_false_r.
  rewrite (sub_year_keep2 b c d) by exact Hd. reflexivity.
Qed.

(** After [re.sub(r'(\d{4})', '', s)] no run of four digits is left. *)
Lemma sub_year_no_year_run_len : forall n s,
  length s <= n -> no_year_run 0 (sub_year s) = true.
Proof.
  induction n as [|n IH]; intros s Hlen.
  - destruct s; [reflexivity | simpl in Hlen; lia].
  - destruct s as [|a t]; [reflexivity|].
    destruct t as [|b [|c [|d r]]].
    + simpl. destruct (is_decimal a); reflexivity.
    + simpl. destruct (is_decimal a), (is_decimal b); reflexivity.
    + simpl. destruct (is_decimal a), (is_decimal b), (is_decimal c); reflexivity.
    + simpl in Hlen.
      destruct (digits4 a b c d) eqn:E.
      * rewrite sub_year_window, E. apply IH. lia.
      * destruct (is_decimal a) eqn:Ea.
        2:{ rewrite sub_year_keep0, no_year_run_nondec by exact Ea.
            apply IH. simpl. lia. }
        destruct (is_decimal b) eqn:Eb.
        2:{ rewrite sub_year_keep1 by exact Eb.
            rewrite no_year_run_dec, no_year_run_nondec by assumption.
            apply IH. simpl. lia. }
        destruct (is_decimal c) eqn:Ec.
        2:{ rewrite sub_year_keep2 by exact Ec.
            rewrite no_year_run_dec, no_year_run_dec, no_year_run_nondec
              by assumption.
            apply IH. simpl. lia. }
        destruct (is_decimal d) eqn:Ed.
        { unfold digits4 in E. rewrite Ea, Eb, Ec, Ed in E. discriminate E. }
        rewrite sub_year_keep3 by exact Ed.
        rewrite no_year_run_dec, no_year_run_dec, no_year_run_dec,
          no_year_run_nondec by assumption.
        apply IH. lia.
Qed.

Lemma sub_year_no_year_run : forall s, no_year_run 0 (sub_year s) = true.
Proof. intros s. exact (sub_year_no_year_run_len (length s) s (le_n _)). Qed.

Lemma sub_year_all_chars_len : forall p n s,
  length s <= n -> all_chars p s = true -> all_chars p (sub_year s) = true.
Proof.
  intros p. induction n as [|n IH]; intros s Hlen H.
  - destruct s; [reflexivity | simpl in Hlen; lia].
  - destruct s as [|a t]; [reflexivity|].
    destruct t as [|b [|c [|d r]]]; try exact H.
    simpl in Hlen. rewrite sub_year_window. destruct (digits4 a b c d).
    + apply IH; [lia|]. simpl in H.
      repeat (apply andb_true_iff in H as [_ H]). exact H.
    + cbn [all_chars] in *. apply andb_true_iff in H as [Ha H].
      rewrite Ha. apply IH; [simpl; lia | exact H].
Qed.

Lemma lstrip_all_chars : forall p s,
  all_chars p s = true -> all_chars p (lstrip s) = true.
Proof.
  induction s as [|c t IH]; intros H; simpl; [reflexivity|].
  destruct (is_space c); [|exact H].
  apply IH. simpl in H. apply andb_true_iff in H as [_ H]. exact H.
Qed.

Lemma strip_all_chars : forall p s,
  all_chars p s = true -> all_chars p (strip s) = true.
Proof.
  intros p s H. unfold strip.
  destruct (rstrip_prefix (lstrip s)) as [u Hu].
  apply lstrip_all_chars with (p := p) in H. rewrite Hu, all_chars_app in H.
  apply andb_true_iff in H as [H _]. exact H.
Qed.

Lemma is_space_space : is_space " " = true.
Proof. reflexivity. Qed.

Lemma key_char_space : key_char " " = true.
Proof. reflexivity. Qed.

Lemma sub_special_chars : forall s,
  all_chars (fun c => is_word c || is_space c) (sub_special s) = true.
Proof.
  induction s as [|c t IH]; cbn [sub_special all_chars]; [reflexivity|].
  rewrite IH, andb_true_r.
  destruct (is_word c || is_space c) eqn:E; [exact E|].
  rewrite is_space_space, orb_true_r. reflexivity.
Qed.

Lemma collapse_ws_chars : forall s b,
  all_chars (fun c => is_word c || is_space c) s = true ->
  all_chars key_char (collapse_ws b s) = true.
Proof.
  induction s as [|c t IH]; intros b H; cbn [collapse_ws]; [reflexivity|].
  cbn [all_chars] in H. apply andb_true_iff in H as [Hc H]. cbv beta in Hc.
  destruct (is_space c) eqn:Es; [destruct b|].
  - apply IH. exact H.
  - cbn [all_chars]. rewrite key_char_space. apply IH. exact H.
  - cbn [all_chars]. rewrite (IH false H), andb_true_r.
    rewrite orb_false_r in Hc. unfold key_char. rewrite Hc. reflexivity.
Qed.

Lemma search_year_decimal : forall s y,
  search_year s = Some y -> all_chars is_decimal y = true.
Proof.
  induction s as [|a t IH]; intros y H; cbn [search_year] in H;
    [discriminate H|].
  destruct t as [|b [|c [|d r]]]; try discriminate H.
  destruct (digits4 a b c d) eqn:E.
  - injection H as <-. unfold digits4 in E. cbn [all_chars].
    rewrite !andb_true_r. rewrite <- !andb_assoc in E. exact E.
  - exact (IH y H).
Qed.

Lemma decimal_key_char : forall s,
  all_chars is_decimal s = true -> all_chars key_char s = true.
Proof.
  induction s as [|c t IH]; intros H; cbn [all_chars] in *; [reflexivity|].
  apply andb_true_iff in H as [Hc H]. rewrite (IH H), andb_true_r.
  unfold key_char, is_word, is_alnum. rewrite Hc. reflexivity.
Qed.

Lemma clean_caption_chars : forall caption,
  all_chars key_char (clean_caption caption) = true.
Proof.
  intros caption. unfold clean_caption, sub_ws.
  apply strip_all_chars, collapse_ws_chars, sub_special_chars.
Qed.

(** Spaces only in, spaces only out. *)
Lemma sub_special_spaces : forall s,
  all_chars (fun c => negb (is_word c)) s = true ->
  all_chars is_space (sub_special s) = true.
Proof.
  induction s as [|c t IH]; intros H; cbn [sub_special all_chars] in *;
    [reflexivity|].
  apply andb_true_iff in H as [Hc H]. rewrite (IH H), andb_true_r.
  apply negb_true_iff in Hc. rewrite Hc. cbn [orb].
  destruct (is_space c) eqn:E; [exact E | exact is_space_space].
Qed.

Lemma collapse_ws_spaces : forall s b,
  all_chars is_space s = true -> all_chars is_space (collapse_ws b s) = true.
Proof.
  induction s as [|c t IH]; intros b H; cbn [collapse_ws all_chars] in *;
    [reflexivity|].
  apply andb_true_iff in H as [Hc H]. rewrite Hc.
  destruct b; [apply IH; exact H|].
  cbn [all_chars]. rewrite (IH true H), is_space_space. reflexivity.
Qed.

Lemma lstrip_spaces : forall s,
  all_chars is_space s = true -> lstrip s = EmptyString.
Proof.
  induction s as [|c t IH]; intros H; cbn [lstrip all_chars] in *;
    [reflexivity|].
  apply andb_true_iff in H as [Hc H]. rewrite Hc. apply IH. exact H.
Qed.

(** Whitespace layout of the cleaned caption. *)
Lemma no_double_space_cons2 : forall a b t,
  no_double_space (String a (String b t)) =
  negb (is_space a && is_space b) && no_double_space (String b t).
Proof. reflexivity. Qed.

Lemma collapse_ws_layout : forall s b,
  no_double_space (collapse_ws b s) = true /\
  (b = true -> starts_space (collapse_ws b s) = false).
Proof.
  induction s as [|c t IH]; intros b; cbn [collapse_ws];
    [split; reflexivity|].
  destruct (is_space c) eqn:Es; [destruct b|].
  - exact (IH true).
  - destruct (IH true) as [H1 H2]. split; [|discriminate].
    specialize (H2 eq_refl).
    destruct (collapse_ws true t) as [|x y]; [reflexivity|].
    cbn [starts_space] in H2. rewrite no_double_space_cons2, H2. exact H1.
  - destruct (IH false) as [H1 _]. split; [|intros _; exact Es].
    destruct (collapse_ws false t) as [|x y]; [reflexivity|].
    rewrite no_double_space_cons2, Es. exact H1.
Qed.

Lemma no_double_space_tail : forall c t,
  no_double_space (String c t) = true -> no_double_space t = true.
Proof.
  intros c [|x y] H; [reflexivity|].
  rewrite no_double_space_cons2 in H. apply andb_true_iff in H as [_ H].
  exact H.
Qed.

Lemma no_double_space_prefix : forall p u,
  no_double_space (p ++ u) = true -> no_double_space p = true.
Proof.
  induction p as [|c t IH]; intros u H; [reflexivity|].
  destruct t as [|x y]; [reflexivity|].
  cbn [append] in H. rewrite no_double_space_cons2 in H |- *.
  apply andb_true_iff in H as [H1 H2]. rewrite H1.
  eapply IH. exact H2.
Qed.

Lemma lstrip_layout : forall s,
  no_double_space s = true ->
  no_double_space (lstrip s) = true /\ starts_space (lstrip s) = false.
Proof.
  induction s as [|c t IH]; intros H; cbn [lstrip]; [split; reflexivity|].
  destruct (is_space c) eqn:Es.
  - apply IH. exact (no_double_space_tail c t H).
  - split; [exact H | exact Es].
Qed.

Lemma ends_space_cons2 : forall c x y,
  ends_space (String c (String x y)) = ends_space (String x y).
Proof. reflexivity. Qed.

Lemma rstrip_ends : forall s, ends_space (rstrip s) = false.
Proof.
  induction s as [|c t IH]; [reflexivity|]. cbn [rstrip].
  destruct (rstrip t) as [|x y].
  - destruct (is_space c) eqn:Es; [reflexivity | exact Es].
  - rewrite ends_space_cons2. exact IH.
Qed.

Lemma rstrip_starts : forall s,
  starts_space s = false -> starts_space (rstrip s) = false.
Proof.
  intros [|c t] H; [reflexivity|]. cbn [starts_space] in H. cbn [rstrip].
  destruct (rstrip t); [rewrite H|]; exact H.
Qed.

Lemma strip_well_spaced : forall s,
  no_double_space s = true -> well_spaced (strip s) = true.
Proof.
  intros s H. unfold strip, well_spaced.
  destruct (lstrip_layout s H) as [H1 H2].
  destruct (rstrip_prefix (lstrip s)) as [u Hu].
  rewrite (rstrip_starts _ H2), rstrip_ends. cbn [negb]. rewrite !andb_true_r.
  apply (no_double_space_prefix _ u). rewrite <- Hu. exact H1.
Qed.

Lemma starts_space_lstrip : forall s, starts_space (lstrip s) = false.
Proof.
  induction s as [|c t IH]; [reflexivity|]. cbn [lstrip].
  destruct (is_space c) eqn:E; [exact IH | exact E].
Qed.

Lemma starts_space_strip : forall s, starts_space (strip s) = false.
Proof. intros s. unfold strip. apply rstrip_starts, starts_space_lstrip. Qed.

Lemma ends_space_strip : forall s, ends_space (strip s) = false.
Proof. intros s. apply rstrip_ends. Qed.

Lemma collapse_ws_body : forall s b,
  all_chars (fun c => is_word c || is_space c) s = true ->
  all_chars body_char (collapse_ws b s) = true.
Proof.
  induction s as [|c t IH]; intros b H; cbn [collapse_ws]; [reflexivity|].
  cbn [all_chars] in H. apply andb_true_iff in H as [Hc H]. cbv beta in Hc.
  destruct (is_space c) eqn:Es; [destruct b|].
  - apply IH. exact H.
  - cbn [all_chars]. apply IH. exact H.
  - cbn [all_chars]. rewrite (IH false H), andb_true_r.
    rewrite orb_false_r in Hc. unfold body_char. rewrite Hc. reflexivity.
Qed.

Lemma clean_caption_body : forall caption,
  all_chars body_char (clean_caption caption) = true.
Proof.
  intros caption. unfold clean_caption, sub_ws.
  apply strip_all_chars, collapse_ws_body, sub_special_chars.
Qed.

Lemma search_year_length : forall s y,
  search_year s = Some y -> String.length y = 4.
Proof.
  induction s as [|a t IH]; intros y H; cbn [search_year] in H;
    [discriminate H|].
  destruct t as [|b [|c [|d r]]]; try discriminate H.
  destruct (digits4 a b c d) eqn:E.
  - injection H as <-. reflexivity.
  - exact (IH y H).
Qed.

Lemma clean_caption_well_spaced : forall caption,
  well_spaced (clean_caption caption) = true.
Proof.
  intros caption. unfold clean_caption, sub_ws.
  apply strip_well_spaced. apply (collapse_ws_layout _ false).
Qed.

Lemma normalize_movie_name_eq : forall caption,
  normalize_movie_name caption =
  match search_year (clean_caption caption) with
  | Some year =>
      strip (sub_year (clean_caption caption)) ++ " (" ++ year ++ ")"
  | None => clean_caption caption
  end.
Proof. reflexivity. Qed.

Lemma year_suffix_chars : forall year,
  all_chars is_decimal year = true ->
  all_chars key_char (" (" ++ year ++ ")") = true.
Proof.
  intros year H. cbn [append all_chars].
  rewrite all_chars_app, (decimal_key_char _ H). reflexivity.
Qed.

(** ** Claims on [normalize_movie_name] *)

(** C2 (as amended): the year is the leftmost four-digit match of the
    cleaned caption, and [re.sub] then deletes every four-digit run from the
    body, so no four-digit substring is left in front of the year. *)
Theorem normalize_first_year_strips_all : forall caption year,
  search_year (clean_caption caption) = Some year ->
  normalize_movie_name caption =
    strip (sub_year (clean_caption caption)) ++ " (" ++ year ++ ")" /\
  search_year (strip (sub_year (clean_caption caption))) = None.
Proof.
  intros caption year H. rewrite normalize_movie_name_eq, H. split; [reflexivity|].
  apply no_year_run_search, no_year_run_strip, sub_year_no_year_run.
Qed.

Lemma normalize_first_year_strips_all_witness :
  search_year (clean_caption "A 1999 2001") = Some "1999" /\
  normalize_movie_name "A 1999 2001" = "A (1999)".
Proof.
  split; [reflexivity|].
  destruct (normalize_first_year_strips_all "A 1999 2001" "1999" eq_refl)
    as [H _].
  rewrite H. reflexivity.
Defined.

(** C2 counterexample: with two four-digit substrings the second one does not
    stay in the body; the key of "A 1999 2001" is "A (1999)". *)
Lemma normalize_second_year_removed :
  normalize_movie_name "A 1999 2001" = "A (1999)".
Proof. reflexivity. Qed.

(** C6: [normalize_movie_name] is not a fixed point on its own output: the
    year is cut out of the body after the whitespace was collapsed, which
    leaves two spaces in "A  B (1999)"; normalising again collapses them. *)
Theorem normalize_not_idempotent :
  normalize_movie_name "A 1999 B" = "A  B (1999)" /\
  normalize_movie_name (normalize_movie_name "A 1999 B") = "A B (1999)" /\
  normalize_movie_name (normalize_movie_name "A 1999 B") <>
    normalize_movie_name "A 1999 B".
Proof.
  split; [reflexivity|]. split; [reflexivity|]. vm_compute. discriminate.
Qed.

(** C7 counterexample: [\w] includes the underscore, which therefore
    survives into the key. *)
Lemma normalize_keeps_underscore :
  normalize_movie_name "a_b" = "a_b".
Proof. reflexivity. Qed.

(** C7 (as amended): a key is made of word characters (alphanumeric or
    underscore) and spaces, followed, only when the cleaned caption has a
    four-digit run, by " (" ++ year ++ ")" with the four digits of its first
    run; the part before the year has no leading or trailing whitespace, and
    a key without year is single-spaced and trimmed; a caption with no word
    character normalises to the empty string. *)
Theorem normalize_key_shape : forall caption,
  (search_year (clean_caption caption) = None ->
   all_chars body_char (normalize_movie_name caption) = true /\
   well_spaced (normalize_movie_name caption) = true) /\
  (forall year, search_year (clean_caption caption) = Some year ->
   exists body,
     normalize_movie_name caption = body ++ " (" ++ year ++ ")" /\
     all_chars body_char body = true /\
     starts_space body = false /\ ends_space body = false /\
     String.length year = 4 /\ all_chars is_decimal year = true) /\
  (all_chars (fun c => negb (is_word c)) caption = true ->
   normalize_movie_name caption = "").
Proof.
  intros caption. rewrite normalize_movie_name_eq. split; [|split].
  - intros E. rewrite E. split; [apply clean_caption_body|].
    apply clean_caption_well_spaced.
  - intros year E. rewrite E.
    exists (strip (sub_year (clean_caption caption))).
    split; [reflexivity|]. split.
    { apply strip_all_chars, (sub_year_all_chars_len _ _ _ (le_n _)),
        clean_caption_body. }
    split; [apply starts_space_strip|]. split; [apply ends_space_strip|].
    split; [exact (search_year_length _ _ E) | exact (search_year_decimal _ _ E)].
  - intros H.
    assert (Hc : clean_caption caption = "").
    { unfold clean_caption, strip, sub_ws.
      rewrite lstrip_spaces; [reflexivity|].
      apply collapse_ws_spaces, sub_special_spaces, H. }
    rewrite Hc. reflexivity.
Qed.

Lemma normalize_key_shape_witness :
  well_spaced (normalize_movie_name "Alien") = true /\
  (exists body, normalize_movie_name "Heat, 1995!" = body ++ " (1995)" /\
                all_chars body_char body = true) /\
  normalize_movie_name "?!" = "".
Proof.
  split; [|split].
  - apply (proj2 (proj1 (normalize_key_shape "Alien") eq_refl)).
  - destruct (proj1 (proj2 (normalize_key_shape "Heat, 1995!")) "1995" eq_refl)
      as [body [H1 [H2 _]]].
    exists body. split; [exact H1 | exact H2].
  - apply (proj2 (proj2 (normalize_key_shape "?!"))). reflexivity.
Defined.

(** ** Lemmas on the catalog store *)

Lemma existsb_key : forall db k,
  existsb (fun r' => String.eqb (normalized_name r') k) db = true <->
  In k (keys db).
Proof.
  intros db k. unfold keys. rewrite existsb_exists, in_map_iff. split.
  - intros [r [Hin Heq]]. apply String.eqb_eq in Heq. exists r. auto.
  - intros [r [Heq Hin]]. exists r. split; [exact Hin|].
    apply String.eqb_eq. exact Heq.
Qed.

Lemma insert_or_ignore_cases : forall db r,
  (In (normalized_name r) (keys db) /\ insert_or_ignore db r = db) \/
  (~ In (normalized_name r) (keys db) /\ insert_or_ignore db r = (db ++ [r])%list).
Proof.
  intros db r. unfold insert_or_ignore.
  destruct (existsb _ db) eqn:E.
  - left. split; [apply existsb_key; exact E | reflexivity].
  - right. split; [|reflexivity].
    intros H. apply existsb_key in H. congruence.
Qed.

Lemma executemany_app : forall db pre post,
  executemany db (pre ++ post) = executemany (executemany db pre) post.
Proof. intros. unfold executemany. apply fold_left_app. Qed.

Lemma executemany_prefix : forall rows db,
  exists added, executemany db rows = (db ++ added)%list.
Proof.
  induction rows as [|r rows IH]; intros db; simpl.
  - exists []. rewrite app_nil_r. reflexivity.
  - destruct (insert_or_ignore_cases db r) as [[_ E]|[_ E]];
      unfold executemany in *; simpl; rewrite E.
    + apply IH.
    + destruct (IH (db ++ [r])%list) as [a Ha]. rewrite Ha.
      exists (r :: a). rewrite <- app_assoc. reflexivity.
Qed.

Lemma executemany_keys : forall rows db k,
  In k (keys (executemany db rows)) ->
  In k (keys db) \/ In k (keys rows).
Proof.
  induction rows as [|r rows IH]; intros db k H; [left; exact H|].
  unfold executemany in H. simpl in H. apply IH in H as [H|H].
  - destruct (insert_or_ignore_cases db r) as [[_ E]|[_ E]];
      rewrite E in H; [left; exact H|].
    unfold keys in H. rewrite map_app, in_app_iff in H. destruct H as [H|H].
    + left. exact H.
    + right. simpl in H. destruct H as [H|[]]. left. exact H.
  - right. right. exact H.
Qed.

Lemma executemany_nodup : forall rows db,
  NoDup (keys db) -> NoDup (keys (executemany db rows)).
Proof.
  induction rows as [|r rows IH]; intros db H; [exact H|].
  unfold executemany. simpl. apply IH.
  destruct (insert_or_ignore_cases db r) as [[_ E]|[Hn E]]; rewrite E;
    [exact H|].
  unfold keys. rewrite map_app. simpl. apply NoDup_app.
  - exact H.
  - constructor; [intros []|constructor].
  - intros a Ha [Heq|[]]. subst a. exact (Hn Ha).
Qed.

Lemma executemany_key_present : forall rows db r,
  In r rows -> In (normalized_name r) (keys (executemany db rows)).
Proof.
  intros rows db r Hr. apply in_split in Hr as [pre [post ->]].
  rewrite executemany_app. simpl.
  set (db1 := executemany db pre).
  destruct (executemany_prefix post (insert_or_ignore db1 r)) as [a Ha].
  unfold executemany in Ha |- *. simpl. rewrite Ha.
  unfold keys. rewrite map_app, in_app_iff. left.
  destruct (insert_or_ignore_cases db1 r) as [[Hin E]|[_ E]]; rewrite E.
  - exact Hin.
  - rewrite map_app, in_app_iff. right. left. reflexivity.
Qed.

Lemma executemany_first_persisted : forall db pre r post,
  ~ In (normalized_name r) (keys db) ->
  ~ In (normalized_name r) (keys pre) ->
  In r (executemany db (pre ++ r :: post)).
Proof.
  intros db pre r post Hdb Hpre.
  rewrite executemany_app.
  assert (Hn : ~ In (normalized_name r) (keys (executemany db pre))).
  { intros H. apply executemany_keys in H as [H|H]; contradiction. }
  destruct (insert_or_ignore_cases (executemany db pre) r)
    as [[Hin _]|[_ E]]; [contradiction|].
  unfold executemany at 1. simpl. fold (executemany (insert_or_ignore (executemany db pre) r) post).
  rewrite E.
  destruct (executemany_prefix post (executemany db pre ++ [r])%list) as [a Ha].
  rewrite Ha. apply in_app_iff. left. apply in_app_iff. right. left.
  reflexivity.
Qed.

Lemma insert_movies_no_fault : forall movies w,
  storage_fault w = None ->
  insert_movies movies w =
  (PyOk tt, set_catalog (executemany (catalog w) movies) w).
Proof. intros movies w H. unfold insert_movies. rewrite H. reflexivity. Qed.

(** C4: with no storage error, [insert_movies] returns normally, keeps every
    existing row as it was (rows are only appended), keeps
    [normalized_name] unique, leaves every key of the batch present, and
    stores each batch row whose key is new to both the table and the
    earlier part of the batch; inserting one row twice leaves one row with
    its key. *)
Theorem insert_movies_first_write_wins : forall movies w,
  storage_fault w = None ->
  fst (insert_movies movies w) = PyOk tt /\
  (exists added,
     catalog (snd (insert_movies movies w)) = (catalog w ++ added)%list) /\
  (NoDup (keys (catalog w)) ->
   NoDup (keys (catalog (snd (insert_movies movies w))))) /\
  (forall r, In r movies ->
   In (normalized_name r) (keys (catalog (snd (insert_movies movies w))))) /\
  (forall pre r post, movies = (pre ++ r :: post)%list ->
   ~ In (normalized_name r) (keys (catalog w)) ->
   ~ In (normalized_name r) (keys pre) ->
   In r (catalog (snd (insert_movies movies w)))) /\
  (forall r, NoDup (keys (catalog w)) ->
   count_occ string_dec
     (keys (catalog (snd (insert_movies [r] (snd (insert_movies [r] w))))))
     (normalized_name r) = 1).
Proof.
  intros movies w H. rewrite insert_movies_no_fault by exact H. simpl.
  split; [reflexivity|]. split; [apply executemany_prefix|].
  split; [apply executemany_nodup|]. split; [apply executemany_key_present|].
  split.
  - intros pre r post -> Hdb Hpre. apply executemany_first_persisted; assumption.
  - intros r Hnd.
    rewrite (insert_movies_no_fault [r] w H). cbn [snd].
    rewrite insert_movies_no_fault by (simpl; exact H). cbn [snd catalog set_catalog].
    apply (NoDup_count_occ' string_dec).
    + do 2 apply executemany_nodup. exact Hnd.
    + apply executemany_key_present. left. reflexivity.
Qed.

Lemma insert_movies_first_write_wins_witness :
  storage_fault (sample_world None [row_a] (Updates []) (Transport Timeout) None)
    = None /\
  catalog (snd (insert_movies [row_a; row_b]
    (sample_world None [row_a] (Updates []) (Transport Timeout) None)))
    = [row_a; row_b].
Proof.
  split; [reflexivity|].
  destruct (insert_movies_first_write_wins [row_a; row_b]
    (sample_world None [row_a] (Updates []) (Transport Timeout) None)
    eq_refl) as [_ [[added Hadd] _]].
  rewrite Hadd. simpl.
  assert (Ha : added = [row_b]).
  { pose proof Hadd as E. vm_compute in E.
    injection E as E. symmetry. exact E. }
  rewrite Ha. reflexivity.
Defined.

(** C5 counterexample: a failure at the second INSERT of the batch rolls the
    first INSERT back with the transaction; [row_a], which the first
    statement had added, is not in the table afterwards. *)
Lemma insert_movies_fault_rolls_back_prefix :
  executemany [] [row_a] = [row_a] /\
  catalog (snd (insert_movies [row_a; row_b]
    (sample_world None [] (Updates []) (Transport Timeout) (Some 1)))) = [].
Proof. split; reflexivity. Qed.

(** C5 (as amended): a storage error at any statement of the batch (or at
    its commit) is logged, [insert_movies] returns normally, and the table
    is left exactly as it was before the call. *)
Theorem insert_movies_fault_atomic : forall movies w n,
  storage_fault w = Some n ->
  n <= List.length movies ->
  fst (insert_movies movies w) = PyOk tt /\
  catalog (snd (insert_movies movies w)) = catalog w /\
  log (snd (insert_movies movies w)) =
    (log w ++ ["Database error during batch insert"])%list.
Proof.
  intros movies w n Hf Hn. unfold insert_movies. rewrite Hf.
  apply Nat.leb_le in Hn. rewrite Hn. simpl. auto.
Qed.

Lemma insert_movies_fault_atomic_witness :
  storage_fault (sample_world None [] (Updates []) (Transport Timeout) (Some 1))
    = Some 1 /\
  1 <= List.length [row_a; row_b] /\
  catalog (snd (insert_movies [row_a; row_b]
    (sample_world None [] (Updates []) (Transport Timeout) (Some 1)))) = [].
Proof.
  split; [reflexivity|]. split; [simpl; lia|].
  apply (insert_movies_fault_atomic [row_a; row_b]
    (sample_world None [] (Updates []) (Transport Timeout) (Some 1)) 1
    eq_refl).
  simpl. lia.
Defined.

(** ** Lemmas on the job *)

(** [keeps proj m]: running [m] leaves the part [proj] of the world as it
    was. *)
Definition keeps {A B} (proj : world -> B) (m : M A) : Prop :=
  forall w, proj (snd (m w)) = proj w.

Lemma keeps_ret : forall A B (proj : world -> B) (a : A), keeps proj (ret a).
Proof. intros A B proj a w. reflexivity. Qed.

Lemma keeps_bind : forall A C B (proj : world -> B) (m : M A) (k : A -> M C),
  keeps proj m -> (forall a, keeps proj (k a)) -> keeps proj (bind m k).
Proof.
  intros A C B proj m k Hm Hk w. unfold bind.
  destruct (m w) as [[a|e] w'] eqn:E.
  - rewrite Hk. specialize (Hm w). rewrite E in Hm. exact Hm.
  - specialize (Hm w). rewrite E in Hm. exact Hm.
Qed.

Lemma keeps_raise : forall A B (proj : world -> B) e,
  keeps proj (fun w => (@PyRaise A e, w)).
Proof. intros A B proj e w. reflexivity. Qed.

Lemma keeps_foldM : forall A C B (proj : world -> B) (f : C -> A -> M C) l,
  (forall c a, keeps proj (f c a)) -> forall c, keeps proj (foldM f l c).
Proof.
  intros A C B proj f l Hf. induction l as [|x l IH]; intros c; simpl.
  - apply keeps_ret.
  - apply keeps_bind; [apply Hf | exact IH].
Qed.

Create HintDb keeps.
#[local] Hint Resolve keeps_ret keeps_bind keeps_raise keeps_foldM : keeps.

Lemma keeps_requested_log : forall m, keeps requested (log_msg m).
Proof. intros m w. reflexivity. Qed.

Lemma keeps_requested_save : forall z, keeps requested (save_last_update_id z).
Proof. intros z w. reflexivity. Qed.

Lemma keeps_requested_insert : forall rows, keeps requested (insert_movies rows).
Proof.
  intros rows w. unfold insert_movies.
  destruct (storage_fault w) as [n|]; [destruct (Nat.leb n _)|]; reflexivity.
Qed.

Lemma keeps_requested_get : forall t, keeps requested (requests_get t).
Proof. intros t w. reflexivity. Qed.

Lemma keeps_requested_sleep : forall n, keeps requested (modify (add_sleep n)).
Proof. intros n w. reflexivity. Qed.

#[local] Hint Resolve keeps_requested_log keeps_requested_save
  keeps_requested_insert keeps_requested_get keeps_requested_sleep : keeps.

Lemma keeps_requested_omdb : forall t,
  keeps requested (fetch_movie_details_from_omdb t).
Proof.
  intros t. unfold fetch_movie_details_from_omdb.
  apply keeps_bind; [auto with keeps|]. intros [e|st b].
  - auto with keeps.
  - destruct (http_error st); [auto with keeps|].
    destruct b as [|[]]; try apply keeps_raise; auto with keeps.
    destruct (response_true kvs); auto with keeps.
Qed.

#[local] Hint Resolve keeps_requested_omdb : keeps.

Lemma keeps_requested_process : forall staged u,
  keeps requested (process_update staged u).
Proof.
  intros staged u. unfold process_update.
  apply keeps_bind; [destruct (update_id u =? 0)%Z; auto with keeps|].
  intros _. destruct (message_of u) as [m|]; [|auto with keeps].
  destruct (document_of m) as [d|]; [|auto with keeps].
  apply keeps_bind; [|auto with keeps].
  destruct (String.eqb _ _); auto with keeps.
Qed.

Lemma get_last_update_id_value : forall w,
  fst (get_last_update_id w) = PyOk (cursor_value (cursor_file w)) /\
  requested (snd (get_last_update_id w)) = requested w /\
  channel (snd (get_last_update_id w)) = channel w /\
  cursor_file (snd (get_last_update_id w)) = cursor_file w.
Proof.
  intros w. unfold get_last_update_id, cursor_value.
  destruct (cursor_file w) as [content|] eqn:E.
  - destruct (parse_int (strip content)); repeat split; simpl; congruence.
  - repeat split; simpl; congruence.
Qed.

(** Each cycle sends the stored cursor, as read, to [get_updates]. *)
Lemma fetch_requested : forall w,
  requested (snd (fetch_movies_from_channel w)) =
  (requested w ++ [cursor_value (cursor_file w)])%list.
Proof.
  intros w. unfold fetch_movies_from_channel. unfold bind at 1.
  destruct (get_last_update_id_value w) as [Hv [Hr [Hc _]]].
  destruct (get_last_update_id w) as [r w1]. simpl in Hv, Hr, Hc. subst r.
  unfold bind at 1. simpl. unfold bind at 1. unfold get_updates. simpl.
  match goal with
  | |- requested (snd (?m ?w0)) = _ =>
      assert (K : keeps requested m); [|rewrite K; simpl; rewrite Hr; reflexivity]
  end.
  destruct (channel w1 _) as [us|e].
  - apply keeps_bind.
    + apply keeps_foldM. apply keeps_requested_process.
    + intros [|x l]; auto with keeps.
  - destruct e; simpl; auto with keeps.
Qed.

(** ** Claims on the cursor and the channel *)

(** C10: when last_update_id.txt holds text that [int()] rejects,
    [get_last_update_id] logs and returns [None] instead of raising, and the
    cycle then calls [get_updates] with no offset. *)
Theorem corrupt_cursor_resets_offset : forall w content,
  cursor_file w = Some content ->
  parse_int (strip content) = None ->
  fst (get_last_update_id w) = PyOk None /\
  log (snd (get_last_update_id w)) =
    (log w ++ ["Error reading LAST_UPDATE_ID_FILE. Resetting to None."])%list /\
  requested (snd (fetch_movies_from_channel w)) = (requested w ++ [None])%list.
Proof.
  intros w content Hf Hp. unfold get_last_update_id. rewrite Hf, Hp.
  split; [reflexivity|]. split; [reflexivity|].
  rewrite fetch_requested. unfold cursor_value. rewrite Hf, Hp. reflexivity.
Qed.

Lemma corrupt_cursor_resets_offset_witness :
  cursor_file (sample_world (Some "12x") [] (Updates []) (Transport Timeout) None)
    = Some "12x" /\
  parse_int (strip "12x") = None /\
  requested (snd (fetch_movies_from_channel
    (sample_world (Some "12x") [] (Updates []) (Transport Timeout) None)))
    = [None].
Proof.
  split; [reflexivity|]. split; [reflexivity|].
  apply (corrupt_cursor_resets_offset
    (sample_world (Some "12x") [] (Updates []) (Transport Timeout) None) "12x");
    reflexivity.
Defined.

(** C9: when [get_updates] raises, the cycle returns normally, writes no
    cursor, inserts nothing and calls no lookup; a rate limit sleeps for the
    advised time, and every case logs its error. *)
Theorem channel_error_aborts_cycle : forall w e,
  channel w (cursor_value (cursor_file w)) = ChannelError e ->
  fst (fetch_movies_from_channel w) = PyOk tt /\
  cursor_file (snd (fetch_movies_from_channel w)) = cursor_file w /\
  catalog (snd (fetch_movies_from_channel w)) = catalog w /\
  omdb_calls (snd (fetch_movies_from_channel w)) = omdb_calls w /\
  slept (snd (fetch_movies_from_channel w)) =
    (slept w ++ match e with RetryAfter n => [n] | _ => [] end)%list /\
  log (snd (fetch_movies_from_channel w)) =
    (log (snd (get_last_update_id w)) ++ ["Fetching updates from channel";
     match e with
      | RetryAfter _ => "Rate limit exceeded."
      | Conflict => "Another bot instance is running. Exiting."
      | Unauthorized => "Invalid or inaccessible chat_id."
      | BadRequest | OtherTelegramError => "Error while fetching updates"
      end])%list.
Proof.
  intros w e H. unfold fetch_movies_from_channel, get_last_update_id.
  unfold cursor_value in H. unfold bind, log_msg, modify, get_updates. cbv beta.
  destruct (cursor_file w) as [content|] eqn:Ef;
    [destruct (parse_int (strip content)) eqn:Ep|].
  all: simpl; rewrite H; destruct e; simpl; rewrite ?Ef, ?Ep, ?app_nil_r;
    repeat split; try reflexivity; rewrite <- !app_assoc; reflexivity.
Qed.

Lemma channel_error_aborts_cycle_witness :
  channel (sample_world (Some "41") [row_a] (ChannelError (RetryAfter 30))
             (Transport Timeout) None)
    (cursor_value (Some "41")) = ChannelError (RetryAfter 30) /\
  slept (snd (fetch_movies_from_channel
    (sample_world (Some "41") [row_a] (ChannelError (RetryAfter 30))
       (Transport Timeout) None))) = [30%Z].
Proof.
  split; [reflexivity|].
  apply (channel_error_aborts_cycle
    (sample_world (Some "41") [row_a] (ChannelError (RetryAfter 30))
       (Transport Timeout) None) (RetryAfter 30) eq_refl).
Defined.

(** ** Lemmas on the lookup and the loop body *)

Lemma fetch_omdb_calls : forall t w,
  omdb_calls (snd (fetch_movie_details_from_omdb t w)) =
  (omdb_calls w ++ [t])%list.
Proof.
  intros t w. unfold fetch_movie_details_from_omdb, bind, requests_get.
  cbv beta iota. simpl.
  destruct (omdb w t) as [e|st [|[]]]; simpl; try reflexivity;
    destruct (http_error st); try reflexivity.
  all: destruct (response_true kvs); reflexivity.
Qed.

Lemma fetch_omdb_failed : forall t w,
  lookup_failed (omdb w t) = true ->
  fst (fetch_movie_details_from_omdb t w) = PyOk error_fetching.
Proof.
  intros t w H. unfold fetch_movie_details_from_omdb, bind, requests_get.
  cbv beta iota. simpl. unfold lookup_failed in H.
  destruct (omdb w t) as [e|st [|j]]; simpl; try reflexivity.
  - destruct (http_error st); reflexivity.
  - rewrite H. reflexivity.
Qed.

Lemma fetch_omdb_object : forall t w st kvs,
  omdb w t = Reply st (Json (JObj kvs)) -> http_error st = false ->
  fst (fetch_movie_details_from_omdb t w) =
  PyOk (if response_true kvs then omdb_summary kvs else details_not_available).
Proof.
  intros t w st kvs H He. unfold fetch_movie_details_from_omdb, bind, requests_get.
  cbv beta iota. simpl. rewrite H, He.
  destruct (response_true kvs); reflexivity.
Qed.

Lemma fetch_omdb_raise : forall t w e,
  fst (fetch_movie_details_from_omdb t w) = PyRaise e ->
  exists st j, omdb w t = Reply st (Json j) /\ http_error st = false /\
    forall kvs, j <> JObj kvs.
Proof.
  intros t w e H. unfold fetch_movie_details_from_omdb, bind, requests_get in H.
  cbv beta iota in H. simpl in H.
  destruct (omdb w t) as [x|st [|j]]; simpl in H; try discriminate H;
    destruct (http_error st) eqn:He; try discriminate H.
  exists st, j. split; [reflexivity|]. split; [exact He|].
  intros kvs ->. destruct (response_true kvs); discriminate H.
Qed.

Lemma fetch_omdb_non_object : forall t w st j,
  omdb w t = Reply st (Json j) -> http_error st = false ->
  (forall kvs, j <> JObj kvs) ->
  fst (fetch_movie_details_from_omdb t w) = PyRaise AttributeError.
Proof.
  intros t w st j Ho He Hj. unfold fetch_movie_details_from_omdb, bind, requests_get.
  cbv beta iota. rewrite Ho. simpl. rewrite He.
  destruct j; try reflexivity. exfalso. exact (Hj kvs eq_refl).
Qed.

Lemma fetch_omdb_results : forall t w d,
  fst (fetch_movie_details_from_omdb t w) = PyOk d ->
  d = error_fetching \/ d = details_not_available \/
  exists kvs, d = omdb_summary kvs.
Proof.
  intros t w d H. unfold fetch_movie_details_from_omdb, bind, requests_get in H.
  cbv beta iota in H. simpl in H.
  destruct (omdb w t) as [x|st [|j]]; simpl in H;
    [injection H as <-; left; reflexivity|..];
    destruct (http_error st); simpl in H;
    try (injection H as <-; left; reflexivity).
  destruct j; simpl in H; try discriminate H.
  destruct (response_true kvs); simpl in H; injection H as <-.
  - right. right. exists kvs. reflexivity.
  - right. left. reflexivity.
Qed.

Lemma omdb_summary_head : forall kvs,
  exists r, omdb_summary kvs = String "T" r.
Proof. intros kvs. eexists. reflexivity. Qed.

Lemma normalize_no_details :
  normalize_movie_name no_details_available = no_details_available.
Proof. reflexivity. Qed.

(** The loop body on a message that carries a document. *)
Lemma process_update_doc : forall staged id cap fid w,
  process_update staged (doc_update id cap fid) w =
  let w1 := if Z.eqb id 0 then w
            else set_cursor_file (Some (z_str (id + 1))) w in
  let caption := caption_or_default cap in
  if String.eqb caption no_details_available then
    match fetch_movie_details_from_omdb (normalize_movie_name caption) w1 with
    | (PyOk online_details, w2) =>
        (PyOk (staged ++
               [mkRow (normalize_movie_name caption)
                  (if String.eqb online_details "" then caption
                   else online_details) fid])%list, w2)
    | (PyRaise e, w2) => (PyRaise e, w2)
    end
  else (PyOk (staged ++ [mkRow (normalize_movie_name caption) caption fid])%list,
        w1).
Proof.
  intros staged id cap fid w. unfold process_update, doc_update.
  cbn [message_of document_of caption file_id update_id]. cbv zeta.
  unfold bind at 1.
  destruct (Z.eqb id 0); cbn [ret save_last_update_id modify];
    destruct (String.eqb (caption_or_default cap) no_details_available);
    unfold bind; try reflexivity.
  all: destruct (fetch_movie_details_from_omdb _ _) as [[d|e] w2];
    reflexivity.
Qed.

Lemma process_update_no_doc_calls : forall staged u w,
  (forall m, message_of u = Some m -> document_of m = None) ->
  omdb_calls (snd (process_update staged u w)) = omdb_calls w.
Proof.
  intros staged u w H. unfold process_update, bind at 1.
  destruct (Z.eqb (update_id u) 0); cbn [ret save_last_update_id modify fst snd].
  all: destruct (message_of u) as [m|]; [rewrite (H m eq_refl)|]; reflexivity.
Qed.

Lemma cursor_step_omdb : forall id w,
  omdb (if Z.eqb id 0 then w else set_cursor_file (Some (z_str (id + 1))) w)
  = omdb w /\
  omdb_calls (if Z.eqb id 0 then w
              else set_cursor_file (Some (z_str (id + 1))) w) = omdb_calls w.
Proof. intros id w. destruct (Z.eqb id 0); split; reflexivity. Qed.

Lemma caption_or_default_some : forall c,
  c <> "" -> caption_or_default (Some c) = c.
Proof.
  intros c H. unfold caption_or_default.
  destruct (String.eqb c "") eqn:E; [|reflexivity].
  apply String.eqb_eq in E. contradiction.
Qed.

Lemma process_update_lookup_calls : forall staged id cap fid w,
  caption_or_default cap = no_details_available ->
  omdb_calls (snd (process_update staged (doc_update id cap fid) w)) =
  (omdb_calls w ++ [no_details_available])%list.
Proof.
  intros staged id cap fid w H. rewrite process_update_doc. cbv zeta.
  rewrite H, String.eqb_refl, normalize_no_details.
  destruct (cursor_step_omdb id w) as [_ Hc].
  pose proof (fetch_omdb_calls no_details_available
    (if Z.eqb id 0 then w else set_cursor_file (Some (z_str (id + 1))) w)) as E.
  rewrite Hc in E.
  destruct (fetch_movie_details_from_omdb _ _) as [[d|e] w2]; exact E.
Qed.

(** ** Claims on the metadata lookup *)

(** C3: a message with a document whose caption is non-empty and not the
    literal "No details available" is staged with that caption verbatim as
    its description, and no lookup is made; a lookup is made only for a
    message with a document whose caption is absent, empty or that literal,
    and then it is made (under the normalised placeholder).  A real caption
    that reads exactly "No details available" is therefore looked up, and
    the lookup's answer (a sentinel or a summary, never the caption) is
    staged in its place. *)
Theorem caption_is_description :
  (forall staged id c fid w,
     c <> "" -> c <> no_details_available ->
     fst (process_update staged (doc_update id (Some c) fid) w) =
       PyOk (staged ++ [mkRow (normalize_movie_name c) c fid])%list /\
     omdb_calls (snd (process_update staged (doc_update id (Some c) fid) w))
       = omdb_calls w) /\
  (forall staged u w,
     omdb_calls (snd (process_update staged u w)) <> omdb_calls w ->
     exists m d, message_of u = Some m /\ document_of m = Some d /\
       caption_or_default (caption m) = no_details_available) /\
  (forall staged id cap fid w,
     caption_or_default cap = no_details_available ->
     omdb_calls (snd (process_update staged (doc_update id cap fid) w)) =
       (omdb_calls w ++ [no_details_available])%list) /\
  (forall staged id fid w rows,
     fst (process_update staged (doc_update id (Some no_details_available) fid) w)
       = PyOk rows ->
     exists d, rows = (staged ++ [mkRow no_details_available d fid])%list /\
       d <> no_details_available /\
       (d = error_fetching \/ d = details_not_available \/
        exists kvs, d = omdb_summary kvs)).
Proof.
  split; [|split; [|split]].
  - intros staged id c fid w Hne Hph.
    rewrite process_update_doc. cbv zeta.
    rewrite (caption_or_default_some c Hne).
    destruct (String.eqb c no_details_available) eqn:E.
    { apply String.eqb_eq in E. contradiction. }
    destruct (cursor_step_omdb id w) as [_ Hc]. split; [reflexivity | exact Hc].
  - intros staged [id [[[[fid]|] cap]|]] w H.
    + destruct (String.eqb (caption_or_default cap) no_details_available) eqn:E.
      * apply String.eqb_eq in E. eexists; eexists; split; [reflexivity|].
        split; [reflexivity | exact E].
      * exfalso. apply H. fold (doc_update id cap fid).
        rewrite process_update_doc. cbv zeta. rewrite E.
        apply cursor_step_omdb.
    + exfalso. apply H. apply process_update_no_doc_calls.
      intros m Hm. injection Hm as <-. reflexivity.
    + exfalso. apply H. apply process_update_no_doc_calls.
      intros m Hm. discriminate Hm.
  - exact process_update_lookup_calls.
  - intros staged id fid w rows H.
    rewrite process_update_doc in H. cbv zeta in H.
    replace (caption_or_default (Some no_details_available))
      with no_details_available in H by reflexivity.
    rewrite String.eqb_refl, normalize_no_details in H.
    destruct (fetch_movie_details_from_omdb no_details_available _)
      as [[d|e] w2] eqn:Ef; [|discriminate H].
    assert (Hd : d = error_fetching \/ d = details_not_available \/
                 exists kvs, d = omdb_summary kvs).
    { eapply fetch_omdb_results. rewrite Ef. reflexivity. }
    assert (Hne : d <> "" /\ d <> no_details_available).
    { destruct Hd as [->|[->|[kvs ->]]]; [split; discriminate..|].
      destruct (omdb_summary_head kvs) as [r ->]. split; discriminate. }
    destruct Hne as [Hn1 Hn2].
    destruct (String.eqb d "") eqn:E0; [apply String.eqb_eq in E0; contradiction|].
    injection H as <-. exists d. split; [reflexivity|]. split; assumption.
Qed.

Lemma caption_is_description_witness :
  fst (process_update [] (doc_update 7 (Some "Heat 1995") "FB")
         (sample_world None [] (Updates []) (Transport Timeout) None))
    = PyOk [mkRow "Heat (1995)" "Heat 1995" "FB"] /\
  omdb_calls (snd (process_update [] (doc_update 8 None "FC")
         (sample_world None [] (Updates []) (Transport Timeout) None)))
    = [no_details_available] /\
  (exists d, [mkRow no_details_available
                (omdb_summary [("Response", JStr "True"); ("Title", JStr "Tenet")])
                "F9"] = [mkRow no_details_available d "F9"] /\
             d <> no_details_available).
Proof.
  split; [|split].
  - destruct (proj1 caption_is_description [] 7%Z "Heat 1995" "FB"
      (sample_world None [] (Updates []) (Transport Timeout) None))
      as [H _]; [discriminate | discriminate |].
    rewrite H. reflexivity.
  - apply (proj1 (proj2 (proj2 caption_is_description)) [] 8%Z None "FC"
      (sample_world None [] (Updates []) (Transport Timeout) None)).
    reflexivity.
  - destruct (proj2 (proj2 (proj2 caption_is_description)) [] 5%Z "F9"
      (sample_world None [] (Updates [])
         (Reply 200 (Json (JObj [("Response", JStr "True");
                                 ("Title", JStr "Tenet")]))) None)
      [mkRow no_details_available
         (omdb_summary [("Response", JStr "True"); ("Title", JStr "Tenet")])
         "F9"]) as [d [Hr [Hd _]]].
    + vm_compute. reflexivity.
    + exists d. split; [exact Hr | exact Hd].
Defined.

(** C8 counterexample: a 200 reply whose JSON body is not an object makes
    [data.get] raise [AttributeError], which the lookup lets through. *)
Lemma omdb_non_object_raises :
  fst (fetch_movie_details_from_omdb "Heat"
         (sample_world None [] (Updates []) (Reply 200 (Json (JArr []))) None))
  = PyRaise AttributeError.
Proof. reflexivity. Qed.

(** C8 (as amended): a transport error, a 4xx/5xx status or a body that is
    not JSON gives the error sentinel; a JSON object gives the summary (with
    "N/A" for each missing field) when its "Response" is "True" and the
    not-available sentinel otherwise; the lookup raises exactly on a JSON
    body that is not an object, and then with [AttributeError]; the three shapes are distinct; and a timed-out
    lookup for a message without caption stages the error sentinel as its
    description. *)
Theorem omdb_lookup_shapes :
  (forall t w, lookup_failed (omdb w t) = true ->
     fst (fetch_movie_details_from_omdb t w) = PyOk error_fetching) /\
  (forall t w st kvs, omdb w t = Reply st (Json (JObj kvs)) ->
     http_error st = false ->
     fst (fetch_movie_details_from_omdb t w) =
       PyOk (if response_true kvs then omdb_summary kvs
             else details_not_available)) /\
  (forall t w e, fst (fetch_movie_details_from_omdb t w) = PyRaise e ->
     exists st j, omdb w t = Reply st (Json j) /\ http_error st = false /\
       forall kvs, j <> JObj kvs) /\
  (forall t w st j, omdb w t = Reply st (Json j) -> http_error st = false ->
     (forall kvs, j <> JObj kvs) ->
     fst (fetch_movie_details_from_omdb t w) = PyRaise AttributeError) /\
  error_fetching <> details_not_available /\
  (forall kvs, omdb_summary kvs <> error_fetching /\
               omdb_summary kvs <> details_not_available) /\
  (forall staged id cap fid w,
     caption_or_default cap = no_details_available ->
     omdb w no_details_available = Transport Timeout ->
     fst (process_update staged (doc_update id cap fid) w) =
       PyOk (staged ++ [mkRow no_details_available error_fetching fid])%list).
Proof.
  split; [exact fetch_omdb_failed|]. split; [exact fetch_omdb_object|].
  split; [exact fetch_omdb_raise|]. split; [exact fetch_omdb_non_object|].
  split; [discriminate|]. split.
  - intros kvs. destruct (omdb_summary_head kvs) as [r ->].
    split; discriminate.
  - intros staged id cap fid w Hc Ht. rewrite process_update_doc. cbv zeta.
    rewrite Hc, String.eqb_refl, normalize_no_details.
    destruct (cursor_step_omdb id w) as [Ho _].
    pose proof (fetch_omdb_failed no_details_available
      (if Z.eqb id 0 then w else set_cursor_file (Some (z_str (id + 1))) w))
      as E.
    rewrite Ho, Ht in E. specialize (E eq_refl).
    destruct (fetch_movie_details_from_omdb _ _) as [[d|e] w2];
      simpl in E; [|discriminate E].
    injection E as ->. reflexivity.
Qed.

Lemma omdb_lookup_shapes_witness :
  fst (process_update [] (doc_update 3 None "FU")
         (sample_world None [] (Updates []) (Transport Timeout) None))
    = PyOk [mkRow no_details_available error_fetching "FU"] /\
  fst (fetch_movie_details_from_omdb "Heat"
         (sample_world None [] (Updates [])
            (Reply 200 (Json (JObj [("Response", JStr "False")]))) None))
    = PyOk details_not_available /\
  fst (fetch_movie_details_from_omdb "Heat"
         (sample_world None [] (Updates []) (Reply 200 (Json (JArr []))) None))
    = PyRaise AttributeError.
Proof.
  split; [|split].
  - apply (proj2 (proj2 (proj2 (proj2 (proj2 (proj2 omdb_lookup_shapes)))))
      [] 3%Z None "FU"
      (sample_world None [] (Updates []) (Transport Timeout) None));
      reflexivity.
  - apply (proj1 (proj2 omdb_lookup_shapes) "Heat"
      (sample_world None [] (Updates [])
         (Reply 200 (Json (JObj [("Response", JStr "False")]))) None)
      200%Z [("Response", JStr "False")]); reflexivity.
  - apply (proj1 (proj2 (proj2 (proj2 omdb_lookup_shapes))) "Heat"
      (sample_world None [] (Updates []) (Reply 200 (Json (JArr []))) None)
      200%Z (JArr [])); [reflexivity | reflexivity | intros kvs; discriminate].
Defined.

(** ** Claim on the matcher *)

Section MatcherProofs.
Context {Vec : Type} (embed : string -> Vec)
  (cosine_similarity : Vec -> Vec -> Q) (q : Vec) (floor : Q).
Local Open Scope Q_scope.

Local Abbreviation sim r := (cosine_similarity q (embed (match_text r))).
Local Abbreviation dist r := (cosine_distance cosine_similarity q (embed (match_text r))).

Lemma pick_best_scan : forall l seen acc,
  match acc with
  | None => forall r, In r seen -> sim r < floor
  | Some (b, bd) => In b seen /\ bd = dist b /\ floor <= sim b /\
                    forall r, In r seen -> bd <= dist r
  end ->
  match fold_left (pick_best embed cosine_similarity q floor) l acc with
  | None => forall r, In r (seen ++ l)%list -> sim r < floor
  | Some (b, bd) => In b (seen ++ l)%list /\ bd = dist b /\ floor <= sim b /\
                    forall r, In r (seen ++ l)%list -> bd <= dist r
  end.
Proof.
  induction l as [|x l IH]; intros seen acc H.
  - rewrite app_nil_r. exact H.
  - simpl. replace (seen ++ x :: l)%list with ((seen ++ [x]) ++ l)%list
      by (rewrite <- app_assoc; reflexivity).
    apply IH. unfold pick_best, cosine_distance in *.
    destruct (Qle_bool floor (sim x)) eqn:Ef.
    + apply Qle_bool_iff in Ef.
      destruct acc as [[b bd]|].
      * destruct H as [Hb [Hbd [Hfb Hall]]].
        destruct (Qle_bool bd (1 - sim x)) eqn:Ed.
        -- apply Qle_bool_iff in Ed.
           split; [apply in_or_app; left; exact Hb|].
           split; [exact Hbd|]. split; [exact Hfb|].
           intros r Hr. apply in_app_or in Hr as [Hr|[<-|[]]];
             [apply Hall; exact Hr | exact Ed].
        -- assert (Hlt : 1 - sim x < bd).
           { apply Qnot_le_lt. intros Hc. apply Qle_bool_iff in Hc.
             congruence. }
           split; [apply in_or_app; right; left; reflexivity|].
           split; [reflexivity|]. split; [exact Ef|].
           intros r Hr. apply in_app_or in Hr as [Hr|[<-|[]]].
           ++ specialize (Hall r Hr). lra.
           ++ lra.
      * split; [apply in_or_app; right; left; reflexivity|].
        split; [reflexivity|]. split; [exact Ef|].
        intros r Hr. apply in_app_or in Hr as [Hr|[<-|[]]].
        -- specialize (H r Hr). lra.
        -- lra.
    + assert (Hlt : sim x < floor).
      { apply Qnot_le_lt. intros Hc. apply Qle_bool_iff in Hc. congruence. }
      destruct acc as [[b bd]|].
      * destruct H as [Hb [Hbd [Hfb Hall]]].
        split; [apply in_or_app; left; exact Hb|].
        split; [exact Hbd|]. split; [exact Hfb|].
        intros r Hr. apply in_app_or in Hr as [Hr|[<-|[]]].
        -- apply Hall. exact Hr.
        -- rewrite Hbd. lra.
      * intros r Hr. apply in_app_or in Hr as [Hr|[<-|[]]].
        -- apply H. exact Hr.
        -- exact Hlt.
Qed.
End MatcherProofs.

(** C1: for every query and catalog snapshot, [best_match] returns absent
    exactly when no entry's similarity to the query reaches the floor;
    otherwise it returns an entry of the snapshot that reaches the floor
    and whose cosine distance to the query is the smallest among all
    entries of the snapshot. *)
Theorem best_match_nearest_above_floor :
  forall (Vec : Type) (embed : string -> Vec)
    (cosine_similarity : Vec -> Vec -> Q) (floor : Q) (query : string)
    (snapshot : list movie_row),
    (best_match embed cosine_similarity floor query snapshot = None <->
       forall r, In r snapshot ->
         (cosine_similarity (embed query) (embed (match_text r)) < floor)%Q) /\
    (forall b, best_match embed cosine_similarity floor query snapshot = Some b ->
       In b snapshot /\
       (floor <= cosine_similarity (embed query) (embed (match_text b)))%Q /\
       forall r, In r snapshot ->
         (cosine_distance cosine_similarity (embed query) (embed (match_text b))
          <= cosine_distance cosine_similarity (embed query) (embed (match_text r)))%Q).
Proof.
  intros Vec embed cos floor query snapshot.
  pose proof (pick_best_scan embed cos (embed query) floor snapshot [] None) as H.
  simpl in H. specialize (H (fun r (Hr : In r []) => match Hr with end)).
  unfold best_match.
  destruct (fold_left (pick_best embed cos (embed query) floor) snapshot None)
    as [[b bd]|] eqn:E; simpl.
  - destruct H as [Hb [Hbd [Hfb Hall]]]. split.
    + split; [discriminate|].
      intros Hnone. specialize (Hnone b Hb). exfalso.
      apply (Qlt_not_le _ _ Hnone). exact Hfb.
    + intros b' Heq. injection Heq as <-.
      split; [exact Hb|]. split; [exact Hfb|].
      intros r Hr. rewrite <- Hbd. apply Hall. exact Hr.
  - split.
    + split; [intros _; exact H | reflexivity].
    + intros b' Heq. discriminate.
Qed.

(** Witness for C1: embeddings are caption lengths, similarity is 1 on
    equal lengths and 0 otherwise, floor 1/2; the query "Heat 1995"
    selects [row_b]. *)
Lemma best_match_nearest_above_floor_witness :
  best_match (fun s => inject_Z (Z.of_nat (String.length s)))
    (fun u v => if Qeq_bool u v then 1%Q else 0%Q) (1 # 2) "Heat 1995"
    [row_a; row_b] = Some row_b /\
  In row_b [row_a; row_b] /\
  (1 # 2 <= (if Qeq_bool (inject_Z (Z.of_nat (String.length "Heat 1995")))
                 (inject_Z (Z.of_nat (String.length (match_text row_b))))
             then 1 else 0))%Q.
Proof.
  pose proof (best_match_nearest_above_floor Q
    (fun s => inject_Z (Z.of_nat (String.length s)))
    (fun u v => if Qeq_bool u v then 1%Q else 0%Q) (1 # 2) "Heat 1995"
    [row_a; row_b]) as [_ H].
  assert (E : best_match (fun s => inject_Z (Z.of_nat (String.length s)))
    (fun u v => if Qeq_bool u v then 1%Q else 0%Q) (1 # 2) "Heat 1995"
    [row_a; row_b] = Some row_b) by (vm_compute; reflexivity).
  destruct (H row_b E) as [Hin [Hfl _]].
  split; [exact E|]. split; [exact Hin | exact Hfl].
Defined.

(** ** Properties beyond the claims: cursor round trip *)

Lemma parse_digits_uint : forall d acc,
  parse_digits acc false (NilEmpty.string_of_uint d) = Some (uval acc d).
Proof. induction d; intros acc; try reflexivity; apply IHd. Qed.

Lemma of_uint_acc_uval : forall l acc,
  Z.pos (Pos.of_uint_acc l acc) = uval (Z.pos acc) l.
Proof.
  induction l; intros acc; cbn [Pos.of_uint_acc uval]; try reflexivity;
  rewrite IHl; f_equal; rewrite ?Pos2Z.inj_add, Pos2Z.inj_mul; lia.
Qed.

Lemma of_uint_uval : forall d, Z.of_uint d = uval 0 d.
Proof.
  unfold Z.of_uint. induction d; cbn [Pos.of_uint Z.of_N uval]; try reflexivity;
  [exact IHd|..]; rewrite of_uint_acc_uval; reflexivity.
Qed.

Lemma parse_unsigned_uint : forall d, d <> Decimal.Nil ->
  parse_unsigned (NilEmpty.string_of_uint d) = Some (Z.of_uint d).
Proof.
  intros d H. rewrite of_uint_uval.
  destruct d; [congruence|..]; apply parse_digits_uint.
Qed.

Lemma uint_no_space : forall d,
  all_chars (fun c => negb (is_space c)) (NilEmpty.string_of_uint d) = true.
Proof. induction d; try reflexivity; exact IHd. Qed.

Lemma lstrip_no_space : forall s,
  all_chars (fun c => negb (is_space c)) s = true -> lstrip s = s.
Proof.
  intros [|c t] H; [reflexivity|]. cbn [all_chars lstrip] in *.
  destruct (is_space c); [discriminate|reflexivity].
Qed.

Lemma rstrip_no_space : forall s,
  all_chars (fun c => negb (is_space c)) s = true -> rstrip s = s.
Proof.
  induction s as [|c t IH]; intros H; [reflexivity|]. cbn [all_chars rstrip] in *.
  apply andb_true_iff in H as [Hc Ht]. rewrite (IH Ht).
  destruct t; [|reflexivity]. destruct (is_space c); [discriminate|reflexivity].
Qed.

Lemma strip_no_space : forall s,
  all_chars (fun c => negb (is_space c)) s = true -> strip s = s.
Proof.
  intros s H. unfold strip. rewrite (lstrip_no_space s H). apply rstrip_no_space, H.
Qed.

Lemma parse_int_z_str : forall z, parse_int (strip (z_str z)) = Some z.
Proof.
  intros z. unfold z_str.
  rewrite <- (DecimalZ.of_to z) at 2.
  destruct (Z.to_int z) as [d|d] eqn:E.
  - assert (Hd : d <> Decimal.Nil).
    { destruct z; simpl in E; try discriminate; injection E as <-;
        [discriminate | apply DecimalPos.Unsigned.to_uint_nonnil]. }
    cbn [NilEmpty.string_of_int]. rewrite strip_no_space by apply uint_no_space.
    cbn [Z.of_int]. rewrite <- parse_unsigned_uint by exact Hd.
    destruct d; [congruence|..]; reflexivity.
  - assert (Hd : d <> Decimal.Nil).
    { destruct z; simpl in E; try discriminate. injection E as <-.
      apply DecimalPos.Unsigned.to_uint_nonnil. }
    cbn [NilEmpty.string_of_int].
    rewrite strip_no_space by (cbn [all_chars]; apply uint_no_space).
    cbn [Z.of_int].
    change (option_map Z.opp (parse_unsigned (NilEmpty.string_of_uint d))
            = Some (- Z.of_uint d)%Z).
    rewrite parse_unsigned_uint by exact Hd. reflexivity.
Qed.

(** ** Properties beyond the claims: the update loop *)

Lemma fetch_omdb_frame : forall t w,
  let w' := snd (fetch_movie_details_from_omdb t w) in
  cursor_file w' = cursor_file w /\ catalog w' = catalog w /\
  storage_fault w' = storage_fault w /\ channel w' = channel w /\
  omdb w' = omdb w.
Proof.
  intros t w. unfold fetch_movie_details_from_omdb, bind, requests_get.
  cbv beta iota. simpl.
  destruct (omdb w t) as [e|st [|[]]]; simpl; try (repeat split; reflexivity);
    destruct (http_error st); try (repeat split; reflexivity).
  all: destruct (response_true kvs); repeat split; reflexivity.
Qed.

(** The loop body on any update. *)
Lemma process_update_eq : forall staged u w,
  process_update staged u w =
  match message_of u with
  | Some m =>
      match document_of m with
      | Some doc =>
          process_update staged (doc_update (update_id u) (caption m) (file_id doc)) w
      | None =>
          (PyOk staged, if Z.eqb (update_id u) 0 then w
                        else set_cursor_file (Some (z_str (update_id u + 1))) w)
      end
  | None =>
      (PyOk staged, if Z.eqb (update_id u) 0 then w
                    else set_cursor_file (Some (z_str (update_id u + 1))) w)
  end.
Proof.
  intros staged [id [[[[fid]|] cap]|]] w; cbn [message_of document_of caption file_id update_id];
    try reflexivity.
  all: unfold process_update, bind; cbn [message_of document_of update_id];
    destruct (Z.eqb id 0); reflexivity.
Qed.

Lemma process_update_frame : forall staged u w,
  let w' := snd (process_update staged u w) in
  cursor_file w' = cursor_step (cursor_file w) u /\ catalog w' = catalog w /\
  storage_fault w' = storage_fault w /\ channel w' = channel w /\
  (omdb_calls w' = omdb_calls w \/
   omdb_calls w' = (omdb_calls w ++ [no_details_available])%list).
Proof.
  intros staged u w. cbv zeta. rewrite process_update_eq. unfold cursor_step.
  destruct (message_of u) as [m|]; [destruct (document_of m) as [d|]|].
  2,3: destruct (Z.eqb (update_id u) 0); repeat split; try left; reflexivity.
  rewrite process_update_doc. cbv zeta.
  destruct (String.eqb (caption_or_default (caption m)) no_details_available) eqn:Ec.
  - apply String.eqb_eq in Ec. rewrite Ec, normalize_no_details.
    set (w1 := if Z.eqb (update_id u) 0 then w
               else set_cursor_file (Some (z_str (update_id u + 1))) w).
    destruct (fetch_omdb_frame no_details_available w1) as [H1 [H2 [H3 [H4 _]]]].
    pose proof (fetch_omdb_calls no_details_available w1) as H5.
    destruct (fetch_movie_details_from_omdb no_details_available w1) as [[x|e] w2];
    simpl in *; rewrite H1, H2, H3, H4, H5;
    unfold w1; destruct (Z.eqb (update_id u) 0); repeat split; right; reflexivity.
  - destruct (Z.eqb (update_id u) 0); repeat split; left; reflexivity.
Qed.

Lemma process_update_rows : forall staged u w rows w',
  process_update staged u w = (PyOk rows, w') ->
  map row_file_id rows = (map row_file_id staged ++ doc_file u)%list.
Proof.
  intros staged u w rows w' H. rewrite process_update_eq in H. unfold doc_file.
  destruct (message_of u) as [m|]; [destruct (document_of m) as [d|]|];
    try (injection H as <- _; rewrite app_nil_r; reflexivity).
  rewrite process_update_doc in H. cbv zeta in H.
  destruct (String.eqb _ _).
  - destruct (fetch_movie_details_from_omdb _ _) as [[x|e] w2]; [|discriminate].
    injection H as <- _. rewrite map_app. reflexivity.
  - injection H as <- _. rewrite map_app. reflexivity.
Qed.

Lemma foldM_process_frame : forall us staged w,
  let w' := snd (foldM process_update us staged w) in
  catalog w' = catalog w /\ storage_fault w' = storage_fault w /\
  exists k, omdb_calls w' = (omdb_calls w ++ repeat no_details_available k)%list.
Proof.
  induction us as [|u us IH]; intros staged w; cbv zeta; simpl.
  - repeat split; exists 0; rewrite app_nil_r; reflexivity.
  - unfold bind. destruct (process_update_frame staged u w) as [_ [H2 [H3 [_ H5]]]].
    destruct (process_update staged u w) as [[rows|e] w1] eqn:E; simpl in *.
    + destruct (IH rows w1) as [I2 [I3 [k Ik]]].
      rewrite I2, I3, H2, H3. repeat split.
      destruct H5 as [H5|H5]; rewrite H5 in Ik.
      * exists k. exact Ik.
      * exists (S k). rewrite Ik, <- app_assoc. reflexivity.
    + repeat split; [assumption | assumption |].
      destruct H5 as [H5|H5]; [exists 0 | exists 1]; rewrite H5;
        [rewrite app_nil_r|]; reflexivity.
Qed.

Lemma foldM_process_ok : forall us staged w rows w',
  foldM process_update us staged w = (PyOk rows, w') ->
  cursor_file w' = fold_left cursor_step us (cursor_file w) /\
  map row_file_id rows = (map row_file_id staged ++ flat_map doc_file us)%list.
Proof.
  induction us as [|u us IH]; intros staged w rows w' H; simpl in H.
  - injection H as <- <-. simpl. rewrite app_nil_r. split; reflexivity.
  - unfold bind in H. pose proof (process_update_frame staged u w) as [F1 _].
    destruct (process_update staged u w) as [[rows1|e] w1] eqn:E; [|discriminate].
    destruct (IH rows1 w1 rows w' H) as [I1 I2]. simpl in F1. simpl.
    rewrite I1, F1, I2, (process_update_rows _ _ _ _ _ E), <- app_assoc.
    split; reflexivity.
Qed.

Lemma fetch_updates_eq : forall w us,
  channel w (cursor_value (cursor_file w)) = Updates us ->
  fetch_movies_from_channel w =
  match foldM process_update us []
          (add_request (cursor_value (cursor_file w))
             (add_log "Fetching updates from channel" (snd (get_last_update_id w)))) with
  | (PyOk rows, w2) =>
      match rows with [] => (PyOk tt, w2) | _ => insert_movies rows w2 end
  | (PyRaise e, w2) => (PyRaise e, w2)
  end.
Proof.
  intros w us H. unfold fetch_movies_from_channel. unfold bind at 1.
  destruct (get_last_update_id_value w) as [Hv [_ [Hch _]]].
  destruct (get_last_update_id w) as [r w1]. simpl in Hv, Hch. subst r.
  unfold bind at 1. simpl. unfold bind at 1. unfold get_updates. simpl.
  rewrite Hch, H. unfold bind.
  destruct (foldM process_update us [] _) as [[[|x l]|e] w2]; reflexivity.
Qed.

Lemma fetch_error_eq : forall w e,
  channel w (cursor_value (cursor_file w)) = ChannelError e ->
  fetch_movies_from_channel w =
  handle_channel_error e
    (add_request (cursor_value (cursor_file w))
       (add_log "Fetching updates from channel" (snd (get_last_update_id w)))).
Proof.
  intros w e H. unfold fetch_movies_from_channel. unfold bind at 1.
  destruct (get_last_update_id_value w) as [Hv [_ [Hch _]]].
  destruct (get_last_update_id w) as [r w1]. simpl in Hv, Hch. subst r.
  unfold bind at 1. simpl. unfold bind at 1. unfold get_updates. simpl.
  rewrite Hch, H. reflexivity.
Qed.

Lemma insert_movies_frame : forall rows w,
  let w' := snd (insert_movies rows w) in
  cursor_file w' = cursor_file w /\ omdb_calls w' = omdb_calls w /\
  (catalog w' = catalog w \/ catalog w' = executemany (catalog w) rows).
Proof.
  intros rows w. unfold insert_movies.
  destruct (storage_fault w) as [n|]; [destruct (Nat.leb n _)|];
    repeat split; auto.
Qed.

Lemma cursor_get_frame : forall w,
  let w1 := add_request (cursor_value (cursor_file w))
             (add_log "Fetching updates from channel" (snd (get_last_update_id w))) in
  cursor_file w1 = cursor_file w /\ catalog w1 = catalog w /\
  storage_fault w1 = storage_fault w /\ omdb_calls w1 = omdb_calls w /\
  omdb w1 = omdb w.
Proof.
  intros w. unfold get_last_update_id.
  destruct (cursor_file w) as [c|] eqn:E; [destruct (parse_int (strip c))|];
    simpl; rewrite ?E; repeat split; reflexivity.
Qed.

Lemma executemany_all_present : forall rows db,
  (forall r, In r rows -> In (normalized_name r) (keys db)) ->
  executemany db rows = db.
Proof.
  induction rows as [|r rows IH]; intros db H; [reflexivity|].
  unfold executemany. simpl.
  destruct (insert_or_ignore_cases db r) as [[_ E]|[Hn _]].
  - rewrite E. apply IH. intros x Hx. apply H. right. exact Hx.
  - exfalso. apply Hn, H. left. reflexivity.
Qed.


Lemma fold_cursor_last : forall pre u post f,
  update_id u <> 0%Z -> Forall (fun v => update_id v = 0%Z) post ->
  fold_left cursor_step (pre ++ u :: post)%list f = Some (z_str (update_id u + 1)).
Proof.
  intros pre u post f Hu Hp. rewrite fold_left_app. simpl.
  unfold cursor_step at 2. rewrite (proj2 (Z.eqb_neq _ _) Hu).
  generalize (Some (z_str (update_id u + 1))). induction Hp as [|v post Hv Hp IH];
    intros g; [reflexivity|]. simpl. unfold cursor_step at 2. rewrite Hv. apply IH.
Qed.

Lemma fold_cursor_zero : forall us f,
  Forall (fun v => update_id v = 0%Z) us -> fold_left cursor_step us f = f.
Proof.
  intros us f H. revert f. induction H as [|v us Hv H IH]; intros f; [reflexivity|].
  simpl. unfold cursor_step at 2. rewrite Hv. apply IH.
Qed.

Lemma fetch_ok_cursor : forall w us,
  channel w (cursor_value (cursor_file w)) = Updates us ->
  fst (fetch_movies_from_channel w) = PyOk tt ->
  cursor_file (snd (fetch_movies_from_channel w)) =
    fold_left cursor_step us (cursor_file w) /\
  exists rows, map row_file_id rows = flat_map doc_file us /\
    (storage_fault w = None ->
     catalog (snd (fetch_movies_from_channel w)) = executemany (catalog w) rows).
Proof.
  intros w us Hc Hok. rewrite (fetch_updates_eq w us Hc) in Hok |- *.
  destruct (cursor_get_frame w) as [G1 [G2 [G3 _]]].
  destruct (foldM_process_frame us [] (add_request (cursor_value (cursor_file w))
             (add_log "Fetching updates from channel" (snd (get_last_update_id w)))))
    as [P2 [P3 _]].
  destruct (foldM process_update us [] _) as [[rows|e] w2] eqn:E; [|discriminate].
  destruct (foldM_process_ok _ _ _ _ _ E) as [O1 O2]. cbn [snd fst app map] in P2, P3, O2.
  rewrite G1 in O1. rewrite G2 in P2. rewrite G3 in P3.
  destruct rows as [|x l].
  - split; [exact O1|]. exists []. split; [exact O2|]. intros _. simpl. exact P2.
  - destruct (insert_movies_frame (x :: l) w2) as [I1 _]. split; [rewrite I1; exact O1|].
    exists (x :: l). split; [exact O2|]. intros Hf.
    rewrite insert_movies_no_fault by (rewrite P3; exact Hf). simpl. rewrite P2. reflexivity.
Qed.

(** Saving any update id and reading the cursor back gives that id: the
    file holds [str(z)], [int] parses it back, and nothing is logged. *)
Theorem save_then_get_last_update_id : forall (z : Z) w,
  (save_last_update_id z ;; get_last_update_id) w =
  (PyOk (Some z), set_cursor_file (Some (z_str z)) w).
Proof.
  intros z w. unfold bind, save_last_update_id, modify, get_last_update_id.
  cbn [cursor_file set_cursor_file]. rewrite parse_int_z_str. reflexivity.
Qed.

(** After a cycle that ran to its end, the cursor file holds the id of the
    last update with a non-zero id, plus one, and the next cycle asks the
    channel for updates from exactly that offset. *)
Theorem cycle_cursor_resumes : forall w us pre u post,
  channel w (cursor_value (cursor_file w)) = Updates us ->
  fst (fetch_movies_from_channel w) = PyOk tt ->
  us = (pre ++ u :: post)%list ->
  update_id u <> 0%Z ->
  Forall (fun v => update_id v = 0%Z) post ->
  cursor_file (snd (fetch_movies_from_channel w)) = Some (z_str (update_id u + 1)) /\
  requested (snd (fetch_movies_from_channel (snd (fetch_movies_from_channel w)))) =
    (requested w ++ [cursor_value (cursor_file w); Some (update_id u + 1)%Z])%list.
Proof.
  intros w us pre u post Hc Hok -> Hu Hp.
  destruct (fetch_ok_cursor w _ Hc Hok) as [H _].
  rewrite fold_cursor_last in H by assumption.
  split; [exact H|].
  rewrite fetch_requested, H, fetch_requested. unfold cursor_value.
  rewrite parse_int_z_str, <- app_assoc. reflexivity.
Qed.

(** Updates whose [update_id] is 0 never move the cursor: a completed cycle
    made only of them leaves the cursor file as it was. *)
Theorem cycle_zero_ids_keep_cursor : forall w us,
  channel w (cursor_value (cursor_file w)) = Updates us ->
  fst (fetch_movies_from_channel w) = PyOk tt ->
  Forall (fun v => update_id v = 0%Z) us ->
  cursor_file (snd (fetch_movies_from_channel w)) = cursor_file w.
Proof.
  intros w us Hc Hok Hz. destruct (fetch_ok_cursor w _ Hc Hok) as [H _].
  rewrite fold_cursor_zero in H by exact Hz. exact H.
Qed.

(** A lookup that raises loses its update: when a captionless document with
    a non-zero id comes first and OMDb answers with JSON that is not an
    object, the cycle raises [AttributeError] after the cursor has moved
    past the update, and nothing of the batch reaches the table. *)
Theorem lookup_raise_loses_update : forall w id cap fid post st j,
  channel w (cursor_value (cursor_file w)) = Updates (doc_update id cap fid :: post) ->
  caption_or_default cap = no_details_available ->
  id <> 0%Z ->
  omdb w no_details_available = Reply st (Json j) ->
  http_error st = false ->
  (forall kvs, j <> JObj kvs) ->
  fst (fetch_movies_from_channel w) = PyRaise AttributeError /\
  cursor_file (snd (fetch_movies_from_channel w)) = Some (z_str (id + 1)) /\
  catalog (snd (fetch_movies_from_channel w)) = catalog w.
Proof.
  intros w id cap fid post st j Hc Hcap Hid Ho He Hj.
  rewrite (fetch_updates_eq w _ Hc).
  destruct (cursor_get_frame w) as [G1 [G2 [_ [_ G5]]]].
  set (w0 := add_request _ _) in *.
  assert (P : exists w2,
    process_update [] (doc_update id cap fid) w0 = (PyRaise AttributeError, w2) /\
    cursor_file w2 = Some (z_str (id + 1)) /\ catalog w2 = catalog w).
  { rewrite process_update_doc. cbv zeta.
    rewrite Hcap, String.eqb_refl, normalize_no_details.
    rewrite (proj2 (Z.eqb_neq _ _) Hid).
    set (w1 := set_cursor_file (Some (z_str (id + 1))) w0).
    assert (R : fst (fetch_movie_details_from_omdb no_details_available w1)
                = PyRaise AttributeError).
    { apply (fetch_omdb_non_object _ _ st j); [|exact He | exact Hj].
      change (omdb w0 no_details_available = Reply st (Json j)). rewrite G5. exact Ho. }
    destruct (fetch_omdb_frame no_details_available w1) as [F1 [F2 _]].
    destruct (fetch_movie_details_from_omdb no_details_available w1) as [[x|e] w2];
      simpl in R; [discriminate|]. destruct e. cbn [fst snd] in F1, F2.
    exists w2. split; [reflexivity|]. split; [exact F1|]. rewrite F2. exact G2. }
  destruct P as [w2 [P1 [P2 P3]]].
  cbn [foldM]. unfold bind. rewrite P1. simpl.
  split; [reflexivity|]. split; [exact P2 | exact P3].
Qed.

(** ** Properties beyond the claims: lookups, catalog and keys *)

(** Every OMDb request a cycle makes is for the title
    "No details available": the lookup is called with the key of the
    placeholder caption, never with anything from the message. *)
Theorem omdb_queries_placeholder_title : forall w,
  exists k, omdb_calls (snd (fetch_movies_from_channel w)) =
            (omdb_calls w ++ repeat no_details_available k)%list.
Proof.
  intros w. destruct (cursor_get_frame w) as [_ [_ [_ [G4 _]]]].
  destruct (channel w (cursor_value (cursor_file w))) as [us|e] eqn:Hc.
  - rewrite (fetch_updates_eq w us Hc).
    destruct (foldM_process_frame us [] (add_request (cursor_value (cursor_file w))
               (add_log "Fetching updates from channel" (snd (get_last_update_id w)))))
      as [_ [_ [k Hk]]].
    rewrite G4 in Hk. exists k.
    destruct (foldM process_update us [] _) as [[[|x l]|e] w2]; cbn [snd] in Hk |- *;
      try exact Hk.
    destruct (insert_movies_frame (x :: l) w2) as [_ [I2 _]]. rewrite I2. exact Hk.
  - rewrite (fetch_error_eq w e Hc). exists 0. rewrite app_nil_r.
    destruct e; simpl; exact G4.
Qed.


(** Without storage error, inserting the same batch a second time changes
    nothing: the result and the whole world equal those of one insert. *)
Theorem insert_movies_idempotent : forall movies w,
  storage_fault w = None ->
  insert_movies movies (snd (insert_movies movies w)) = insert_movies movies w.
Proof.
  intros movies w H. rewrite (insert_movies_no_fault movies w H). cbn [snd].
  rewrite insert_movies_no_fault by exact H. cbn [catalog set_catalog].
  rewrite (executemany_all_present movies (executemany (catalog w) movies)).
  - reflexivity.
  - intros r Hr. apply executemany_key_present. exact Hr.
Qed.

(** Without storage error, inserting one batch and then another is the same
    as inserting their concatenation in one call. *)
Theorem insert_movies_batches_compose : forall b1 b2 w,
  storage_fault w = None ->
  (insert_movies b1 ;; insert_movies b2) w = insert_movies (b1 ++ b2) w.
Proof.
  intros b1 b2 w H. unfold bind. rewrite (insert_movies_no_fault b1 w H).
  rewrite insert_movies_no_fault by exact H.
  rewrite (insert_movies_no_fault (b1 ++ b2) w H), executemany_app. reflexivity.
Qed.

Lemma ends_space_app : forall s t, t <> EmptyString ->
  ends_space (s ++ t) = ends_space t.
Proof.
  induction s as [|c s IH]; intros t Ht; [reflexivity|]. cbn [append].
  rewrite <- (IH t Ht). destruct s; cbn [append].
  - destruct t; [congruence | reflexivity].
  - reflexivity.
Qed.

(** A key never ends in whitespace; it starts with a space exactly when the
    cleaned caption has a four-digit run and nothing is left once the runs
    are removed, as for "1999!", whose key is " (1999)". *)
Theorem normalize_leading_space : forall caption,
  ends_space (normalize_movie_name caption) = false /\
  (starts_space (normalize_movie_name caption) = true <->
   search_year (clean_caption caption) <> None /\
   strip (sub_year (clean_caption caption)) = "").
Proof.
  intros caption. rewrite normalize_movie_name_eq.
  destruct (search_year (clean_caption caption)) as [y|].
  - split.
    + rewrite ends_space_app by discriminate.
      change (" (" ++ y ++ ")") with (String " " (String "(" (y ++ ")"))).
      rewrite ends_space_cons2.
      change (ends_space ("(" ++ (y ++ ")")) = false).
      rewrite (ends_space_app "(" (y ++ ")")) by (destruct y; discriminate).
      rewrite ends_space_app by discriminate. reflexivity.
    + destruct (strip (sub_year (clean_caption caption))) as [|c t] eqn:E.
      * split; [intros _; split; [discriminate | reflexivity] | reflexivity].
      * cbn [append starts_space]. rewrite <- E.
        replace (is_space c) with (starts_space (strip (sub_year (clean_caption caption))))
          by (rewrite E; reflexivity).
        rewrite starts_space_strip.
        split; [intros H; discriminate H | intros [_ H]; rewrite E in H; discriminate H].
  - unfold clean_caption. rewrite ends_space_strip, starts_space_strip.
    split; [reflexivity|]. split; [discriminate | intros [H _]; contradiction].
Qed.

Lemma sub_special_idem : forall s, sub_special (sub_special s) = sub_special s.
Proof.
  induction s as [|c t IH]; [reflexivity|]. cbn [sub_special]. rewrite IH.
  destruct (is_word c || is_space c) eqn:E; [rewrite E; reflexivity|].
  reflexivity.
Qed.

(** Replacing each character that is neither a word character nor
    whitespace by a space never changes a caption's key. *)
Theorem normalize_punctuation_as_space : forall caption,
  normalize_movie_name (sub_special caption) = normalize_movie_name caption.
Proof.
  intros caption. unfold normalize_movie_name. rewrite sub_special_idem. reflexivity.
Qed.

(** Without storage error, a cycle that runs to its end inserts one row per
    update that carries a document, with the documents' [file_id]s in the
    order the updates arrived; other updates stage nothing. *)
Theorem cycle_stores_documents_in_order : forall w us,
  channel w (cursor_value (cursor_file w)) = Updates us ->
  storage_fault w = None ->
  fst (fetch_movies_from_channel w) = PyOk tt ->
  exists rows,
    catalog (snd (fetch_movies_from_channel w)) = executemany (catalog w) rows /\
    map row_file_id rows = flat_map doc_file us.
Proof.
  intros w us Hc Hf Hok. destruct (fetch_ok_cursor w us Hc Hok) as [_ [rows [R1 R2]]].
  exists rows. split; [exact (R2 Hf) | exact R1].
Qed.

(** ** Witnesses of the properties beyond the claims *)

Lemma cycle_cursor_resumes_witness :
  let w := sample_world None [] (Updates [doc_update 7 (Some "Alien 1979") "F1";
                                          plain_update 0]) (Transport Timeout) None in
  cursor_file (snd (fetch_movies_from_channel w)) = Some (z_str 8) /\
  requested (snd (fetch_movies_from_channel (snd (fetch_movies_from_channel w)))) =
    [None; Some 8%Z].
Proof.
  cbv zeta.
  pose proof (cycle_cursor_resumes
    (sample_world None [] (Updates [doc_update 7 (Some "Alien 1979") "F1";
                                    plain_update 0]) (Transport Timeout) None)
    _ [] (doc_update 7 (Some "Alien 1979") "F1") [plain_update 0]
    eq_refl ltac:(vm_compute; reflexivity) eq_refl ltac:(discriminate)
    ltac:(repeat constructor)) as [H1 H2].
  split; [exact H1 | rewrite H2; reflexivity].
Defined.

Lemma cycle_zero_ids_keep_cursor_witness :
  let w := sample_world (Some "5") [] (Updates [doc_update 0 (Some "Heat") "F4"])
             (Transport Timeout) None in
  cursor_file (snd (fetch_movies_from_channel w)) = Some "5".
Proof.
  cbv zeta.
  apply (cycle_zero_ids_keep_cursor
    (sample_world (Some "5") [] (Updates [doc_update 0 (Some "Heat") "F4"])
       (Transport Timeout) None) [doc_update 0 (Some "Heat") "F4"]).
  - reflexivity.
  - vm_compute. reflexivity.
  - repeat constructor.
Defined.

Lemma lookup_raise_loses_update_witness :
  let w := sample_world None [row_a] (Updates [doc_update 9 None "F2"])
             (Reply 200 (Json (JArr []))) None in
  fst (fetch_movies_from_channel w) = PyRaise AttributeError /\
  cursor_file (snd (fetch_movies_from_channel w)) = Some (z_str 10) /\
  catalog (snd (fetch_movies_from_channel w)) = [row_a].
Proof.
  cbv zeta.
  apply (lookup_raise_loses_update
    (sample_world None [row_a] (Updates [doc_update 9 None "F2"])
       (Reply 200 (Json (JArr []))) None) 9 None "F2" [] 200 (JArr [])).
  - reflexivity.
  - reflexivity.
  - discriminate.
  - reflexivity.
  - reflexivity.
  - intros kvs. discriminate.
Defined.


Lemma insert_movies_idempotent_witness :
  let w := sample_world None [row_a] (Updates []) (Transport Timeout) None in
  insert_movies [row_b; row_a] (snd (insert_movies [row_b; row_a] w)) =
  insert_movies [row_b; row_a] w.
Proof.
  cbv zeta. apply (insert_movies_idempotent [row_b; row_a]
    (sample_world None [row_a] (Updates []) (Transport Timeout) None)).
  reflexivity.
Defined.

Lemma insert_movies_batches_compose_witness :
  let w := sample_world None [] (Updates []) (Transport Timeout) None in
  (insert_movies [row_a] ;; insert_movies [row_b; row_a]) w =
  insert_movies [row_a; row_b; row_a] w.
Proof.
  cbv zeta. apply (insert_movies_batches_compose [row_a] [row_b; row_a]
    (sample_world None [] (Updates []) (Transport Timeout) None)).
  reflexivity.
Defined.

Lemma normalize_leading_space_witness :
  normalize_movie_name "1999!" = " (1999)" /\
  starts_space (normalize_movie_name "1999!") = true.
Proof.
  split; [reflexivity|].
  apply (proj2 (normalize_leading_space "1999!")). split; [discriminate | reflexivity].
Defined.

Lemma cycle_stores_documents_in_order_witness :
  let w := sample_world None [] (Updates [doc_update 1 (Some "Heat 1995") "FB";
                                          plain_update 2;
                                          doc_update 3 (Some "Alien 1979") "FA"])
             (Transport Timeout) None in
  exists rows,
    catalog (snd (fetch_movies_from_channel w)) = executemany [] rows /\
    map row_file_id rows = ["FB"; "FA"].
Proof.
  cbv zeta. apply (cycle_stores_documents_in_order
    (sample_world None [] (Updates [doc_update 1 (Some "Heat 1995") "FB";
                                    plain_update 2;
                                    doc_update 3 (Some "Alien 1979") "FA"])
       (Transport Timeout) None)
    [doc_update 1 (Some "Heat 1995") "FB"; plain_update 2;
     doc_update 3 (Some "Alien 1979") "FA"]).
  - reflexivity.
  - reflexivity.
  - vm_compute. reflexivity.
Defined.
